(** * motoinat.py: Mushroom Observer number to iNaturalist observation

  A shallow embedding of [src/motoinat.py] and the properties of its
  resolver ([find_inaturalist_observation]) and of its command line front
  end ([main]).

  Conventions of the embedding.
  - A Python [str] is a [string]; a character is the code point of that
    number, so the strings of this development are the Python strings
    whose code points are below 256.  [str.strip] and [str.isdigit] follow
    CPython's character tables on that range.
  - A decoded JSON body is a [pyval]: the Python values [json] produces.
  - Output is a trace of [event]s: every [requests.get], every [print]
    with its stream, and every [logging.warning].  The [logging.debug]
    calls only format their arguments and are left out.
  - A Python exception that nothing catches is the [inl] of a result. *)

From Stdlib Require Import String Ascii List ZArith NArith Lia Bool.
From Stdlib Require Import Floats.PrimFloat.
From Stdlib Require Import DecimalString.
Import ListNotations.
Open Scope list_scope.
Open Scope string_scope.
Set Warnings "-register-all".

(** ** Python strings *)

Module PyStr.

Definition code (c : ascii) : N := N_of_ascii c.

Definition between (lo hi n : N) : bool := ((lo <=? n) && (n <=? hi))%N.

(** [c.isspace()] for a code point below 256: TAB..CR, FS..US, SPACE,
    NEL (0x85) and NBSP (0xA0). *)
Definition isspace (c : ascii) : bool :=
  let n := code c in
  between 9 13 n || between 28 32 n || (n =? 133)%N || (n =? 160)%N.

(** The ten ASCII decimal digits. *)
Definition is_decimal (c : ascii) : bool := between 48 57 (code c).

(** [c.isdigit()] for a code point below 256: the decimal digits and the
    superscripts two (0xB2), three (0xB3) and one (0xB9). *)
Definition isdigit_char (c : ascii) : bool :=
  let n := code c in
  between 48 57 n || (n =? 178)%N || (n =? 179)%N || (n =? 185)%N.

Fixpoint all_chars (p : ascii -> bool) (s : string) : bool :=
  match s with
  | EmptyString => true
  | String c s' => p c && all_chars p s'
  end.

(** [bool(s)]: a string is true when it is not empty. *)
Definition nonempty (s : string) : bool :=
  match s with
  | EmptyString => false
  | String _ _ => true
  end.

(** [s.isdigit()]: at least one character and every character a digit. *)
Definition isdigit (s : string) : bool :=
  nonempty s && all_chars isdigit_char s.

Fixpoint lstrip (s : string) : string :=
  match s with
  | EmptyString => EmptyString
  | String c s' => if isspace c then lstrip s' else s
  end.

Fixpoint rstrip (s : string) : string :=
  match s with
  | EmptyString => EmptyString
  | String c s' =>
      let r := rstrip s' in
      if isspace c && negb (nonempty r) then EmptyString else String c r
  end.

(** [s.strip()] *)
Definition strip (s : string) : string := rstrip (lstrip s).

(** [str(z)] for a Python [int]. *)
Definition of_int (z : Z) : string := NilZero.string_of_int (Z.to_int z).

End PyStr.

(** ** Python values decoded from JSON *)

Inductive pyval : Type :=
| PNone
| PBool (b : bool)
| PInt (z : Z)
| PFloat (f : float)
| PStr (s : string)
| PList (l : list pyval)
| PDict (d : list (string * pyval)).

(** Uncaught exceptions of the program. *)
Inductive exn : Type :=
| KeyError (key : pyval)
| TypeError
| IndexError
| AttributeError
| UnicodeDecodeError
| SystemExit (code : Z).

Module Py.

(** [d[k]] on the items of a dict, in insertion order; keys are unique in
    a Python dict, so the first binding is the only one. *)
Fixpoint lookup (k : string) (d : list (string * pyval)) : option pyval :=
  match d with
  | [] => None
  | (k', v) :: d' => if String.eqb k k' then Some v else lookup k d'
  end.

(** [bool(v)] *)
Definition truthy (v : pyval) : bool :=
  match v with
  | PNone => false
  | PBool b => b
  | PInt z => negb (z =? 0)%Z
  | PFloat f => negb (PrimFloat.eqb f 0%float)
  | PStr s => PyStr.nonempty s
  | PList l => match l with [] => false | _ :: _ => true end
  | PDict d => match d with [] => false | _ :: _ => true end
  end.

(** [v[k]] with a string key [k]. *)
Definition getitem (v : pyval) (k : string) : exn + pyval :=
  match v with
  | PDict d =>
      match lookup k d with
      | Some x => inr x
      | None => inl (KeyError (PStr k))
      end
  | _ => inl TypeError
  end.

(** [v[0]] *)
Definition getitem0 (v : pyval) : exn + pyval :=
  match v with
  | PList (x :: _) => inr x
  | PList [] => inl IndexError
  | PStr (String c _) => inr (PStr (String c EmptyString))
  | PStr EmptyString => inl IndexError
  | PDict _ => inl (KeyError (PInt 0))
  | _ => inl TypeError
  end.

(** [v > 0] *)
Definition gt0 (v : pyval) : exn + bool :=
  match v with
  | PInt z => inr (0 <? z)%Z
  | PBool b => inr b
  | PFloat f => inr (PrimFloat.ltb 0%float f)
  | _ => inl TypeError
  end.

(** [v.get(k, default)] *)
Definition get (v : pyval) (k : string) (default : pyval) : exn + pyval :=
  match v with
  | PDict d =>
      match lookup k d with
      | Some x => inr x
      | None => inr default
      end
  | _ => inl AttributeError
  end.

End Py.

(** ** Effects: a trace of events and uncaught exceptions *)

Inductive stream : Type := stdout | stderr.

Inductive event : Type :=
| Get (url : string) (params : list (string * string))
| Print (file : stream) (line : string)
| LogWarning (msg : string).

(** What [requests.get(...)], [raise_for_status()] and [response.json()]
    do for one request, named after the handler of [_fetch_inat_data] that
    catches it. *)
Inductive http_outcome : Type :=
| RequestException (e : string)
| JSONDecodeError (e : string)
| Json (data : pyval).

(** What opening and reading the [--file] argument does: one of the three
    exceptions [main] handles (every other [OSError] is an [IOError]), a
    decoding error, which it does not handle, or the lines of the file. *)
Inductive file_outcome : Type :=
| FileNotFoundError
| PermissionError
| IOError (e : string)
| FileDecodeError
| FileLines (lines : list string).

(** [argparse]'s namespace. *)
Record Namespace : Type := mkNamespace {
  mo_numbers : list string;
  file : option string;
  debug : bool;
  url : bool;
  q : bool
}.

(** A computation returns a value or raises, and leaves a trace. *)
Definition M (A : Type) : Type := ((exn + A) * list event)%type.

Definition ret {A : Type} (a : A) : M A := (inr a, []).

Definition raise {A : Type} (e : exn) : M A := (inl e, []).

Definition bind {A B : Type} (m : M A) (k : A -> M B) : M B :=
  match m with
  | (inl e, t) => (inl e, t)
  | (inr a, t) => let (r, t') := k a in (r, (t ++ t')%list)
  end.

Definition emit (e : event) : M unit := (inr tt, [e]).

(** An expression that may raise, evaluated without output. *)
Definition eval {A : Type} (r : exn + A) : M A := (r, []).

Declare Scope monad_scope.
Delimit Scope monad_scope with monad.
Notation "x <- m ;; k" := (bind m (fun x => k))
  (at level 61, m at next level, right associativity) : monad_scope.
Notation "m ;; k" := (bind m (fun _ => k))
  (at level 61, right associativity) : monad_scope.
Open Scope monad_scope.

(** [print(line)] and [print(line, file=sys.stderr)] *)
Definition print (line : string) : M unit := emit (Print stdout line).
Definition print_stderr (line : string) : M unit := emit (Print stderr line).

(** A [for] loop whose body has no [return]. *)
Fixpoint for_each {A : Type} (body : A -> M unit) (l : list A) : M unit :=
  match l with
  | [] => ret tt
  | x :: l' => body x ;; for_each body l'
  end.

(** The exit status of the interpreter for the outcome of [main()]. *)
Definition exit_status (r : exn + unit) : Z :=
  match r with
  | inr _ => 0
  | inl (SystemExit c) => c
  | inl _ => 1
  end.

(** The requests of a trace, in order. *)
Fixpoint requests (t : list event) : list (string * list (string * string)) :=
  match t with
  | [] => []
  | Get u p :: t' => (u, p) :: requests t'
  | _ :: t' => requests t'
  end.

(** The lines printed on a stream, in order. *)
Fixpoint printed (f : stream) (t : list event) : list string :=
  match t with
  | [] => []
  | Print stdout l :: t' =>
      match f with stdout => l :: printed f t' | stderr => printed f t' end
  | Print stderr l :: t' =>
      match f with stderr => l :: printed f t' | stdout => printed f t' end
  | _ :: t' => printed f t'
  end.

(** The warnings logged, in order. *)
Fixpoint warnings (t : list event) : list string :=
  match t with
  | [] => []
  | LogWarning m :: t' => m :: warnings t'
  | _ :: t' => warnings t'
  end.

(** ** Fixtures

    The mocked responses of [src/test_motoinat.py] and a few more. *)

Module Mock.

(** [{'total_results': 1, 'results': [{'id': 12345, ...}]}] *)
Definition record_full : pyval :=
  PDict [ ("id", PInt 12345);
          ("species_guess", PStr "Amanita muscaria");
          ("place_guess", PStr "California, USA") ].

Definition body_found : pyval :=
  PDict [ ("total_results", PInt 1); ("results", PList [record_full]) ].

(** [{'total_results': 1, 'results': [{'id': 12345}]}] *)
Definition record_bare : pyval := PDict [ ("id", PInt 12345) ].

Definition body_found_bare : pyval :=
  PDict [ ("total_results", PInt 1); ("results", PList [record_bare]) ].

(** [{'total_results': 0, 'results': []}] *)
Definition body_empty : pyval :=
  PDict [ ("total_results", PInt 0); ("results", PList []) ].

Definition api_found (_ : string) (_ : list (string * string)) : http_outcome :=
  Json body_found.

Definition api_found_bare (_ : string) (_ : list (string * string))
    : http_outcome :=
  Json body_found_bare.

Definition api_empty (_ : string) (_ : list (string * string)) : http_outcome :=
  Json body_empty.

(** [mock_get.side_effect = RequestException("Test API error")] *)
Definition api_error (_ : string) (_ : list (string * string)) : http_outcome :=
  RequestException "Test API error".

(** A body that is JSON but has no result count. *)
Definition api_no_count (_ : string) (_ : list (string * string))
    : http_outcome :=
  Json (PDict [ ("error", PStr "unexpected") ]).

(** Only the https bare-id candidate of observation 67890 is on record. *)
Definition api_fourth (_ : string) (params : list (string * string))
    : http_outcome :=
  match params with
  | (_, mo_url) :: _ =>
      if String.eqb mo_url "https://mushroomobserver.org/67890"
      then Json body_found else Json body_empty
  | [] => Json body_empty
  end.

(** [mock_open(read_data="123\n456\n")] *)
Definition file_two_numbers (_ : string) : file_outcome :=
  FileLines [ String "1" (String "2" (String "3" (String "010" EmptyString)));
              String "4" (String "5" (String "6" (String "010" EmptyString))) ].

Definition file_missing (_ : string) : file_outcome := FileNotFoundError.

Definition file_denied (_ : string) : file_outcome := PermissionError.

Definition repr_unused (_ : pyval) : string := "".

(** The one-character token SUPERSCRIPT TWO (U+00B2). *)
Definition superscript_two : string := String "178" EmptyString.

End Mock.

(** ** The program *)

Section Program.

(** [str(v)] of a float, a list or a dict: CPython's [repr], not part of
    the program. *)
Variable py_repr : pyval -> string.

(** The iNaturalist API: the outcome of a GET of a URL with query
    parameters. *)
Variable api : string -> list (string * string) -> http_outcome.

(** The file system: the outcome of opening a path and reading its lines. *)
Variable open_file : string -> file_outcome.

(** [str(v)], which is also what an f-string field [{v}] and [print(v)]
    show. *)
Definition py_str (v : pyval) : string :=
  match v with
  | PNone => "None"
  | PBool true => "True"
  | PBool false => "False"
  | PInt z => PyStr.of_int z
  | PStr s => s
  | _ => py_repr v
  end.

Definition base_url : string := "https://api.inaturalist.org/v1/observations".

Definition _fetch_inat_data (mo_url_to_check : string)
    (api_params : list (string * string)) (debug_mode : bool) : M pyval :=
  emit (Get base_url api_params) ;;
  match api base_url api_params with
  | Json data => ret data
  | RequestException e =>
      emit (LogWarning ("Network error while contacting iNaturalist API for URL "
                        ++ mo_url_to_check ++ ": " ++ e)) ;;
      ret PNone
  | JSONDecodeError e =>
      emit (LogWarning ("Error decoding JSON response from iNaturalist API for URL "
                        ++ mo_url_to_check ++ ": " ++ e)) ;;
      ret PNone
  end.

Definition _format_and_print_observation (mo_number : string)
    (obs_item : pyval) (matched_mo_url : string)
    (url_only_flag number_only_flag : bool) : M unit :=
  id <- eval (Py.getitem obs_item "id") ;;
  let inat_url := "https://www.inaturalist.org/observations/" ++ py_str id in
  if number_only_flag then
    print (py_str id)
  else if url_only_flag then
    print inat_url
  else
    species_guess <- eval (Py.get obs_item "species_guess" (PStr "N/A")) ;;
    place_guess <- eval (Py.get obs_item "place_guess" (PStr "N/A")) ;;
    print ("Mushroom Observer #" ++ mo_number ++ ":") ;;
    print ("  iNaturalist Observation: " ++ inat_url) ;;
    print ("  Species: " ++ py_str species_guess) ;;
    print ("  Location: " ++ py_str place_guess) ;;
    print ("  Matched URL: " ++ matched_mo_url) ;;
    print "".

Definition mo_urls (mo_number : string) : list string :=
  [ "http://mushroomobserver.org/observer/show_observation/" ++ mo_number;
    "https://mushroomobserver.org/observer/show_observation/" ++ mo_number;
    "http://mushroomobserver.org/" ++ mo_number;
    "https://mushroomobserver.org/" ++ mo_number;
    "http://mushroomobserver.org/obs/" ++ mo_number;
    "https://mushroomobserver.org/obs/" ++ mo_number ].

(** The [params] dict built for a candidate. *)
Definition params_of (mo_url : string) : list (string * string) :=
  [ ("field:Mushroom Observer URL", mo_url); ("verifiable", "any") ].

(** The test [data and data['total_results'] > 0]. *)
Definition accepts (data : pyval) : exn + bool :=
  if Py.truthy data then
    match Py.getitem data "total_results" with
    | inr n => Py.gt0 n
    | inl e => inl e
    end
  else inr false.

(** The [for mo_url in mo_urls] loop; the result says whether the loop
    reached its [return]. *)
Fixpoint try_urls (mo_number : string) (debug_mode url_only number_only : bool)
    (urls : list string) : M bool :=
  match urls with
  | [] => ret false
  | mo_url :: rest =>
      let params := params_of mo_url in
      data <- _fetch_inat_data mo_url params debug_mode ;;
      hit <- eval (accepts data) ;;
      if (hit : bool) then
        results <- eval (Py.getitem data "results") ;;
        first <- eval (Py.getitem0 results) ;;
        _format_and_print_observation mo_number first mo_url
                                      url_only number_only ;;
        ret true
      else
        try_urls mo_number debug_mode url_only number_only rest
  end.

(** The statements after the loop. *)
Definition not_found (mo_number : string) (url_only number_only : bool)
    : M unit :=
  if url_only || number_only then
    print ("Mushroom Observer #" ++ mo_number
           ++ " has no iNaturalist observation associated with it.")
  else
    print ("No iNaturalist observation found for Mushroom Observer #"
           ++ mo_number) ;;
    print "".

Definition find_inaturalist_observation (mo_number : string)
    (debug_mode url_only number_only : bool) : M unit :=
  returned <- try_urls mo_number debug_mode url_only number_only
                       (mo_urls mo_number) ;;
  if (returned : bool) then ret tt
  else not_found mo_number url_only number_only.

(** The lines of the file that [main] appends: stripped, empty ones
    dropped. *)
Fixpoint file_tokens (lines : list string) : list string :=
  match lines with
  | [] => []
  | line :: rest =>
      let stripped_line := PyStr.strip line in
      if PyStr.nonempty stripped_line then stripped_line :: file_tokens rest
      else file_tokens rest
  end.

(** The [if args.file:] block. *)
Definition read_file (args : Namespace) : M (list string) :=
  match file args with
  | None => ret (mo_numbers args)
  | Some path =>
      if PyStr.nonempty path then
        match open_file path with
        | FileLines lines => ret (mo_numbers args ++ file_tokens lines)%list
        | FileNotFoundError =>
            print ("Error reading file " ++ path
                   ++ ": FileNotFoundError - File not found.") ;;
            raise (SystemExit 1)
        | PermissionError =>
            print ("Error reading file " ++ path
                   ++ ": PermissionError - Permission denied.") ;;
            raise (SystemExit 1)
        | IOError e =>
            print ("Error reading file " ++ path ++ ": IOError - " ++ e) ;;
            raise (SystemExit 1)
        | FileDecodeError => raise UnicodeDecodeError
        end
      else ret (mo_numbers args)
  end.

(** The validation loop; the result is [valid_mo_numbers]. *)
Fixpoint validate (mo_numbers : list string) : M (list string) :=
  match mo_numbers with
  | [] => ret []
  | num_str :: rest =>
      let processed_num_str := PyStr.strip num_str in
      if negb (PyStr.nonempty processed_num_str) then validate rest
      else if PyStr.isdigit processed_num_str then
        valid <- validate rest ;;
        ret (processed_num_str :: valid)
      else
        print_stderr ("Warning: Invalid MO number '" ++ processed_num_str
                      ++ "' provided. Skipping.") ;;
        validate rest
  end.

Definition main (args : Namespace) : M unit :=
  mo_numbers <- read_file args ;;
  mo_numbers <- validate mo_numbers ;;
  match mo_numbers with
  | [] =>
      print "Error: No valid Mushroom Observer numbers provided." ;;
      print "Usage: python script.py [mo_numbers] [--file FILE] [--debug] [--url] [-q]" ;;
      raise (SystemExit 1)
  | _ :: _ =>
      for_each (fun mo_number =>
                  find_inaturalist_observation mo_number (debug args)
                                               (url args) (q args))
               mo_numbers
  end.

(** ** Notions used to state the properties *)

(** [m] with the trace [t] in front of its own. *)
Definition prefix_trace {A : Type} (t : list event) (m : M A) : M A :=
  (fst m, (t ++ snd m)%list).

(** The request sent for a candidate and what comes back. *)
Definition request_of (mo_url : string) : string * list (string * string) :=
  (base_url, params_of mo_url).

Definition outcome (mo_url : string) : http_outcome :=
  api base_url (params_of mo_url).

(** What [_fetch_inat_data] returns for a candidate, and its trace. *)
Definition fetched (mo_url : string) : pyval :=
  match outcome mo_url with
  | Json data => data
  | _ => PNone
  end.

Definition fetch_trace (mo_url : string) : list event :=
  Get base_url (params_of mo_url) ::
  match outcome mo_url with
  | Json _ => []
  | RequestException e =>
      [LogWarning ("Network error while contacting iNaturalist API for URL "
                   ++ mo_url ++ ": " ++ e)]
  | JSONDecodeError e =>
      [LogWarning ("Error decoding JSON response from iNaturalist API for URL "
                   ++ mo_url ++ ": " ++ e)]
  end.

Definition attempts (urls : list string) : list event :=
  flat_map fetch_trace urls.

(** The candidate is passed over: the loop's test comes out false. *)
Definition no_match (mo_url : string) : bool :=
  match accepts (fetched mo_url) with
  | inr false => true
  | _ => false
  end.

(** Transport failure or undecodable body. *)
Definition fails (o : http_outcome) : bool :=
  match o with
  | Json _ => false
  | _ => true
  end.

(** A decoded body that reports no result. *)
Definition zero_results (o : http_outcome) : bool :=
  match o with
  | Json (PDict d) =>
      match Py.lookup "total_results" d with
      | Some (PInt 0) => true
      | _ => false
      end
  | _ => false
  end.

(** The body of section 6 of the specification: an object with an integer
    [total_results] and an array [results] of objects that have an integer
    [id]; a positive count comes with at least one record. *)
Definition is_record (v : pyval) : bool :=
  match v with
  | PDict d =>
      match Py.lookup "id" d with
      | Some (PInt _) => true
      | _ => false
      end
  | _ => false
  end.

Definition well_formed (data : pyval) : bool :=
  match data with
  | PDict d =>
      match Py.lookup "total_results" d, Py.lookup "results" d with
      | Some (PInt n), Some (PList rs) =>
          forallb is_record rs
          && ((n <=? 0)%Z || match rs with [] => false | _ :: _ => true end)
      | _, _ => false
      end
  | _ => false
  end.

(** The API keeps to its interface for a request: it fails, or the body
    cannot be decoded, or the body is well formed. *)
Definition conforms (o : http_outcome) : bool :=
  match o with
  | Json data => well_formed data
  | _ => true
  end.

(** Candidate [u] is the first one of the lookup whose test passes, and
    [obs] is the first record of its results. *)
Definition first_match (mo_number : string) (pre : list string) (u : string)
    (post : list string) (obs : pyval) : Prop :=
  mo_urls mo_number = (pre ++ u :: post)%list /\
  Forall (fun v => no_match v = true) pre /\
  exists data rest,
    outcome u = Json data /\
    accepts data = inr true /\
    Py.getitem data "results" = inr (PList (obs :: rest)).

(** The validation rule as the specification words it: after trimming, not
    empty and only decimal digits. *)
Definition spec_valid_token (tok : string) : bool :=
  PyStr.nonempty (PyStr.strip tok)
  && PyStr.all_chars PyStr.is_decimal (PyStr.strip tok).

(** What the validation loop does with a token. *)
Definition accepted (tok : string) : bool := PyStr.isdigit (PyStr.strip tok).

Definition warned (tok : string) : bool :=
  PyStr.nonempty (PyStr.strip tok) && negb (PyStr.isdigit (PyStr.strip tok)).

Definition warning_of (tok : string) : event :=
  Print stderr ("Warning: Invalid MO number '" ++ PyStr.strip tok
                ++ "' provided. Skipping.").

Definition valid_numbers (toks : list string) : list string :=
  map PyStr.strip (filter accepted toks).

(** The file named by [--file] cannot be read. *)
Definition unreadable (args : Namespace) : bool :=
  match file args with
  | Some path =>
      PyStr.nonempty path
      && match open_file path with FileLines _ => false | _ => true end
  | None => false
  end.

(** The tokens [main] validates when the file, if any, can be read. *)
Definition tokens (args : Namespace) : list string :=
  match file args with
  | Some path =>
      match open_file path with
      | FileLines lines =>
          if PyStr.nonempty path then (mo_numbers args ++ file_tokens lines)%list
          else mo_numbers args
      | _ => mo_numbers args
      end
  | None => mo_numbers args
  end.

(** The resolver as [main] calls it. *)
Definition resolve (args : Namespace) (mo_number : string) : M unit :=
  find_inaturalist_observation mo_number (debug args) (url args) (q args).

(** The branch of the loop taken when the test passes. *)
Definition report_match (mo_number : string) (url_only number_only : bool)
    (mo_url : string) (data : pyval) : M bool :=
  results <- eval (Py.getitem data "results") ;;
  first <- eval (Py.getitem0 results) ;;
  _format_and_print_observation mo_number first mo_url url_only number_only ;;
  ret true.

(** The lines of the not-found result. *)
Definition not_found_lines (mo_number : string) (url_only number_only : bool)
    : list string :=
  if url_only || number_only then
    [ "Mushroom Observer #" ++ mo_number
      ++ " has no iNaturalist observation associated with it." ]
  else
    [ "No iNaturalist observation found for Mushroom Observer #" ++ mo_number;
      "" ].

(** The text after the path in the message of a file that cannot be read. *)
Definition file_error_text (o : file_outcome) : string :=
  match o with
  | FileNotFoundError => ": FileNotFoundError - File not found."
  | PermissionError => ": PermissionError - Permission denied."
  | IOError e => ": IOError - " ++ e
  | FileDecodeError | FileLines _ => ""
  end.

(** The two lines [main] prints when no valid number is left. *)
Definition no_valid_lines : list string :=
  [ "Error: No valid Mushroom Observer numbers provided.";
    "Usage: python script.py [mo_numbers] [--file FILE] [--debug] [--url] [-q]" ].

(** ** Trimming *)

Lemma lstrip_spec (s : string) :
  exists l, s = l ++ PyStr.lstrip s /\ PyStr.all_chars PyStr.isspace l = true.
Proof.
  induction s as [| c s (l & Hs & Hl)].
  - now exists "".
  - cbn [PyStr.lstrip]. destruct (PyStr.isspace c) eqn:Hc.
    + exists (String c l). cbn. rewrite Hc, Hl. now rewrite <- Hs.
    + now exists "".
Qed.

Lemma lstrip_head (s : string) (c : ascii) (t : string) :
  PyStr.lstrip s = String c t -> PyStr.isspace c = false.
Proof.
  induction s as [| a s IH]; [discriminate |].
  cbn [PyStr.lstrip]. destruct (PyStr.isspace a) eqn:Ha; [exact IH |].
  intros [= <- _]. exact Ha.
Qed.

Lemma rstrip_spec (s : string) :
  exists r, s = PyStr.rstrip s ++ r /\ PyStr.all_chars PyStr.isspace r = true.
Proof.
  induction s as [| c s (r & Hs & Hr)].
  - now exists "".
  - cbn [PyStr.rstrip].
    destruct (PyStr.isspace c && negb (PyStr.nonempty (PyStr.rstrip s))) eqn:E.
    + apply andb_prop in E as [Hc He].
      exists (String c s). split; [reflexivity |]. cbn. rewrite Hc.
      destruct (PyStr.rstrip s); [| discriminate]. now rewrite Hs.
    + exists r. cbn. now rewrite <- Hs.
Qed.

Lemma rstrip_last (s t : string) (c : ascii) :
  PyStr.rstrip s = t ++ String c "" -> PyStr.isspace c = false.
Proof.
  revert t. induction s as [| a s IH]; intros t.
  - destruct t; discriminate.
  - cbn [PyStr.rstrip].
    destruct (PyStr.isspace a && negb (PyStr.nonempty (PyStr.rstrip s))) eqn:E.
    + destruct t; discriminate.
    + destruct t as [| b t]; cbn.
      * intros [= -> Hs]. rewrite Hs in E. cbn in E.
        now rewrite andb_true_r in E.
      * intros [= _ Hs]. exact (IH t Hs).
Qed.

(** [s.strip()] is [s] without a run of blanks at each end, and neither
    begins nor ends with a blank. *)
Lemma strip_spec (s : string) :
  (exists l r,
      s = l ++ PyStr.strip s ++ r /\
      PyStr.all_chars PyStr.isspace l = true /\
      PyStr.all_chars PyStr.isspace r = true)
  /\ (forall c t, PyStr.strip s = String c t -> PyStr.isspace c = false)
  /\ (forall t c, PyStr.strip s = t ++ String c "" -> PyStr.isspace c = false).
Proof.
  unfold PyStr.strip. split; [| split].
  - destruct (lstrip_spec s) as (l & Hs & Hl).
    destruct (rstrip_spec (PyStr.lstrip s)) as (r & Hu & Hr).
    exists l, r. split; [| now split]. now rewrite <- Hu.
  - intros c t H. destruct (PyStr.lstrip s) as [| a u] eqn:Hu; [discriminate |].
    pose proof (lstrip_head s a u Hu) as Ha.
    cbn [PyStr.rstrip] in H. rewrite Ha in H. cbn in H.
    now injection H as <- _.
  - intros t c. apply rstrip_last.
Qed.

(** ** Laws of the trace monad *)

Lemma prefix_trace_nil {A : Type} (m : M A) : prefix_trace [] m = m.
Proof. destruct m as [r t]. reflexivity. Qed.

Lemma prefix_trace_app {A : Type} (t1 t2 : list event) (m : M A) :
  prefix_trace t1 (prefix_trace t2 m) = prefix_trace (t1 ++ t2)%list m.
Proof. unfold prefix_trace. simpl. now rewrite app_assoc. Qed.

Lemma bind_ret {A B : Type} (a : A) (k : A -> M B) : bind (ret a) k = k a.
Proof. unfold bind, ret. destruct (k a) as [r t]. reflexivity. Qed.

Lemma bind_eval_inr {A B : Type} (a : A) (k : A -> M B) :
  bind (eval (inr a)) k = k a.
Proof. apply bind_ret. Qed.

Lemma bind_eval_inl {A B : Type} (e : exn) (k : A -> M B) :
  bind (eval (inl e)) k = (inl e, []).
Proof. reflexivity. Qed.

Lemma bind_emit {B : Type} (e : event) (k : unit -> M B) :
  bind (emit e) k = prefix_trace [e] (k tt).
Proof. unfold bind, emit, prefix_trace. destruct (k tt) as [r t]. reflexivity. Qed.

Lemma bind_prefix {A B : Type} (t : list event) (m : M A) (k : A -> M B) :
  bind (prefix_trace t m) k = prefix_trace t (bind m k).
Proof.
  destruct m as [[e | a] t']; unfold prefix_trace, bind; simpl.
  - reflexivity.
  - destruct (k a) as [r t'']. simpl. now rewrite app_assoc.
Qed.

Lemma bind_value {A B : Type} (a : A) (t : list event) (k : A -> M B) :
  bind (inr a, t) k = prefix_trace t (k a).
Proof. unfold bind, prefix_trace. destruct (k a) as [r t']. reflexivity. Qed.

Lemma fst_prefix {A : Type} (t : list event) (m : M A) :
  fst (prefix_trace t m) = fst m.
Proof. reflexivity. Qed.

Lemma snd_prefix {A : Type} (t : list event) (m : M A) :
  snd (prefix_trace t m) = (t ++ snd m)%list.
Proof. reflexivity. Qed.

(** ** Projections of a trace *)

Lemma requests_app (t1 t2 : list event) :
  requests (t1 ++ t2) = (requests t1 ++ requests t2)%list.
Proof.
  induction t1 as [| [u p | f l | m] t1 IH]; simpl; [reflexivity | | |];
    now rewrite IH.
Qed.

Lemma printed_app (f : stream) (t1 t2 : list event) :
  printed f (t1 ++ t2) = (printed f t1 ++ printed f t2)%list.
Proof.
  induction t1 as [| [u p | [|] l | m] t1 IH]; simpl; [reflexivity | | | |];
    destruct f; simpl; now rewrite IH.
Qed.

Lemma requests_fetch_trace (u : string) :
  requests (fetch_trace u) = [request_of u].
Proof. unfold fetch_trace. destruct (outcome u); reflexivity. Qed.

Lemma printed_fetch_trace (f : stream) (u : string) :
  printed f (fetch_trace u) = [].
Proof. unfold fetch_trace. destruct (outcome u); reflexivity. Qed.

Lemma requests_attempts (urls : list string) :
  requests (attempts urls) = map request_of urls.
Proof.
  unfold attempts.
  induction urls as [| u urls IH]; cbn [flat_map map]; [reflexivity |].
  now rewrite requests_app, requests_fetch_trace, IH.
Qed.

Lemma printed_attempts (f : stream) (urls : list string) :
  printed f (attempts urls) = [].
Proof.
  unfold attempts.
  induction urls as [| u urls IH]; cbn [flat_map]; [now destruct f |].
  now rewrite printed_app, printed_fetch_trace, IH.
Qed.

(** ** The helpers of the resolver *)

Lemma fetch_spec (u : string) (debug_mode : bool) :
  _fetch_inat_data u (params_of u) debug_mode = (inr (fetched u), fetch_trace u).
Proof.
  unfold _fetch_inat_data, fetched, fetch_trace, outcome.
  destruct (api base_url (params_of u)); reflexivity.
Qed.

(** The record is an object with an [id]: the three output modes. *)
Lemma format_spec (mo_number : string) (d : list (string * pyval))
    (matched : string) (url_only number_only : bool) (id : pyval) :
  Py.lookup "id" d = Some id ->
  _format_and_print_observation mo_number (PDict d) matched url_only number_only
  = (inr tt,
     if number_only then [Print stdout (py_str id)]
     else if url_only then
       [Print stdout ("https://www.inaturalist.org/observations/" ++ py_str id)]
     else
       [ Print stdout ("Mushroom Observer #" ++ mo_number ++ ":");
         Print stdout ("  iNaturalist Observation: "
                       ++ "https://www.inaturalist.org/observations/"
                       ++ py_str id);
         Print stdout ("  Species: "
                       ++ py_str (match Py.lookup "species_guess" d with
                                  | Some v => v
                                  | None => PStr "N/A"
                                  end));
         Print stdout ("  Location: "
                       ++ py_str (match Py.lookup "place_guess" d with
                                  | Some v => v
                                  | None => PStr "N/A"
                                  end));
         Print stdout ("  Matched URL: " ++ matched);
         Print stdout "" ]).
Proof.
  intros Hid. unfold _format_and_print_observation, Py.getitem, Py.get.
  rewrite Hid. rewrite bind_eval_inr.
  destruct number_only; [reflexivity |].
  destruct url_only; [reflexivity |].
  destruct (Py.lookup "species_guess" d), (Py.lookup "place_guess" d);
    reflexivity.
Qed.

(** Whatever the record is, formatting sends no request and writes nothing
    to the error stream. *)
Lemma format_quiet (mo_number : string) (obs : pyval) (matched : string)
    (url_only number_only : bool) :
  requests (snd (_format_and_print_observation mo_number obs matched
                                               url_only number_only)) = []
  /\ printed stderr (snd (_format_and_print_observation mo_number obs matched
                                                        url_only number_only)) = [].
Proof.
  unfold _format_and_print_observation.
  destruct (Py.getitem obs "id") as [e | id]; [split; reflexivity |].
  rewrite bind_eval_inr.
  destruct number_only; [split; reflexivity |].
  destruct url_only; [split; reflexivity |].
  destruct obs; try (split; reflexivity).
  unfold Py.get.
  destruct (Py.lookup "species_guess" d), (Py.lookup "place_guess" d);
    split; reflexivity.
Qed.

(** ** The candidate loop *)

Lemma try_urls_step (mo_number : string) (debug_mode url_only number_only : bool)
    (u : string) (rest : list string) :
  try_urls mo_number debug_mode url_only number_only (u :: rest)
  = prefix_trace (fetch_trace u)
      match accepts (fetched u) with
      | inl e => (inl e, [])
      | inr true => report_match mo_number url_only number_only u (fetched u)
      | inr false => try_urls mo_number debug_mode url_only number_only rest
      end.
Proof.
  cbn [try_urls]. rewrite fetch_spec, bind_value. f_equal.
  destruct (accepts (fetched u)) as [e | [|]].
  - reflexivity.
  - rewrite bind_eval_inr. reflexivity.
  - rewrite bind_eval_inr. reflexivity.
Qed.

(** Candidates whose test comes out false are passed over one by one. *)
Lemma try_urls_skip (mo_number : string) (debug_mode url_only number_only : bool)
    (pre rest : list string) :
  Forall (fun v => no_match v = true) pre ->
  try_urls mo_number debug_mode url_only number_only (pre ++ rest)
  = prefix_trace (attempts pre)
      (try_urls mo_number debug_mode url_only number_only rest).
Proof.
  induction 1 as [| u pre Hu _ IH].
  - simpl. now rewrite prefix_trace_nil.
  - rewrite <- app_comm_cons, try_urls_step.
    unfold no_match in Hu.
    destruct (accepts (fetched u)) as [e | [|]]; try discriminate.
    rewrite IH, prefix_trace_app. reflexivity.
Qed.

Lemma try_urls_exhausted (mo_number : string)
    (debug_mode url_only number_only : bool) (urls : list string) :
  Forall (fun v => no_match v = true) urls ->
  try_urls mo_number debug_mode url_only number_only urls
  = (inr false, attempts urls).
Proof.
  intros H. rewrite <- (app_nil_r urls) at 1.
  rewrite (try_urls_skip _ _ _ _ _ _ H). simpl.
  unfold prefix_trace. simpl. now rewrite app_nil_r.
Qed.

(** The branch taken on a match, once the first record is known. *)
Lemma report_match_spec (mo_number : string) (url_only number_only : bool)
    (u : string) (data obs : pyval) (rest : list pyval) :
  Py.getitem data "results" = inr (PList (obs :: rest)) ->
  report_match mo_number url_only number_only u data
  = (_format_and_print_observation mo_number obs u url_only number_only ;;
     ret true).
Proof.
  intros H. unfold report_match. rewrite H, bind_eval_inr.
  cbn [Py.getitem0]. now rewrite bind_eval_inr.
Qed.

Lemma report_match_quiet (mo_number : string) (url_only number_only : bool)
    (u : string) (data : pyval) :
  requests (snd (report_match mo_number url_only number_only u data)) = []
  /\ printed stderr
       (snd (report_match mo_number url_only number_only u data)) = [].
Proof.
  unfold report_match.
  destruct (Py.getitem data "results") as [e | results];
    [split; reflexivity | rewrite bind_eval_inr].
  destruct (Py.getitem0 results) as [e | first];
    [split; reflexivity | rewrite bind_eval_inr].
  destruct (format_quiet mo_number first u url_only number_only) as [Hr Hp].
  destruct (_format_and_print_observation mo_number first u url_only number_only)
    as [[e | []] t]; simpl in *.
  - now split.
  - rewrite app_nil_r. now split.
Qed.

(** A lookup whose first passing candidate is [u]. *)
Lemma find_first_match (mo_number : string)
    (debug_mode url_only number_only : bool)
    (pre : list string) (u : string) (post : list string) (obs : pyval) :
  first_match mo_number pre u post obs ->
  find_inaturalist_observation mo_number debug_mode url_only number_only
  = prefix_trace (attempts pre ++ [Get base_url (params_of u)])
      (_format_and_print_observation mo_number obs u url_only number_only).
Proof.
  intros (Hsplit & Hpre & data & rest & Hout & Hacc & Hres).
  unfold find_inaturalist_observation. rewrite Hsplit.
  rewrite (try_urls_skip _ _ _ _ _ _ Hpre), try_urls_step.
  assert (Hf : fetched u = data) by (unfold fetched; now rewrite Hout).
  assert (Ht : fetch_trace u = [Get base_url (params_of u)])
    by (unfold fetch_trace; now rewrite Hout).
  rewrite Hf, Ht, Hacc, (report_match_spec _ _ _ _ _ _ _ Hres).
  rewrite prefix_trace_app, bind_prefix. f_equal.
  destruct (_format_and_print_observation mo_number obs u url_only number_only)
    as [[e | []] t]; [reflexivity |].
  cbn. now rewrite !app_nil_r.
Qed.

(** A lookup none of whose candidates passes. *)
Lemma find_exhausted (mo_number : string)
    (debug_mode url_only number_only : bool) :
  Forall (fun v => no_match v = true) (mo_urls mo_number) ->
  find_inaturalist_observation mo_number debug_mode url_only number_only
  = (inr tt,
     (attempts (mo_urls mo_number)
      ++ map (Print stdout) (not_found_lines mo_number url_only number_only))%list).
Proof.
  intros H. unfold find_inaturalist_observation.
  rewrite (try_urls_exhausted _ _ _ _ _ H), bind_value.
  unfold not_found, not_found_lines.
  destruct (url_only || number_only); reflexivity.
Qed.

(** Every run of the loop is of one of two kinds: all candidates are passed
    over, or the candidates before some [u] are passed over and [u] is
    not. *)
Lemma try_urls_cases (mo_number : string) (debug_mode url_only number_only : bool)
    (urls : list string) :
  (Forall (fun v => no_match v = true) urls /\
   try_urls mo_number debug_mode url_only number_only urls
   = (inr false, attempts urls))
  \/
  (exists pre u post,
      urls = (pre ++ u :: post)%list /\
      Forall (fun v => no_match v = true) pre /\
      no_match u = false /\
      try_urls mo_number debug_mode url_only number_only urls
      = prefix_trace (attempts pre ++ fetch_trace u)
          match accepts (fetched u) with
          | inl e => (inl e, [])
          | inr _ => report_match mo_number url_only number_only u (fetched u)
          end).
Proof.
  induction urls as [| u urls IH].
  - left. split; [constructor | reflexivity].
  - destruct (no_match u) eqn:Hu.
    + destruct IH as [[Hall Hrun] | (pre & v & post & Hsplit & Hpre & Hv & Hrun)].
      * left. split; [now constructor |].
        apply try_urls_exhausted. now constructor.
      * right. exists (u :: pre), v, post.
        split; [now rewrite Hsplit |].
        split; [now constructor |].
        split; [assumption |].
        rewrite try_urls_step. unfold no_match in Hu.
        destruct (accepts (fetched u)) as [e | [|]]; try discriminate.
        rewrite Hrun, prefix_trace_app. f_equal.
        unfold attempts. cbn [flat_map]. now rewrite app_assoc.
    + right. exists [], u, urls.
      split; [reflexivity |]. split; [constructor |]. split; [assumption |].
      rewrite try_urls_step. unfold no_match in Hu. simpl.
      destruct (accepts (fetched u)) as [e | [|]];
        [reflexivity | reflexivity | discriminate].
Qed.

(** A candidate that is not passed over came back with a decoded body. *)
Lemma not_passed_over_json (u : string) :
  no_match u = false ->
  exists data, outcome u = Json data /\ fetched u = data
               /\ fetch_trace u = [Get base_url (params_of u)].
Proof.
  unfold no_match, fetched, fetch_trace.
  destruct (outcome u) as [e | e | data]; try discriminate.
  intros _. now exists data.
Qed.

(** The requests of a lookup, in both kinds of run. *)
Lemma find_requests (mo_number : string)
    (debug_mode url_only number_only : bool) :
  let r := find_inaturalist_observation mo_number debug_mode url_only number_only in
  (Forall (fun v => no_match v = true) (mo_urls mo_number) /\
   requests (snd r) = map request_of (mo_urls mo_number))
  \/
  (exists pre u post,
      mo_urls mo_number = (pre ++ u :: post)%list /\
      Forall (fun v => no_match v = true) pre /\
      no_match u = false /\
      requests (snd r) = map request_of (pre ++ [u]) /\
      (accepts (fetched u) = inr true \/ exists e, fst r = inl e)).
Proof.
  cbv zeta.
  destruct (try_urls_cases mo_number debug_mode url_only number_only
              (mo_urls mo_number))
    as [[Hall _] | (pre & u & post & Hsplit & Hpre & Hu & Hrun)].
  - left. split; [assumption |].
    rewrite (find_exhausted _ _ _ _ Hall). cbn [snd].
    rewrite requests_app, requests_attempts.
    unfold not_found_lines.
    destruct (url_only || number_only); cbn [map requests];
      now rewrite app_nil_r.
  - right. exists pre, u, post.
    split; [assumption |]. split; [assumption |]. split; [assumption |].
    destruct (not_passed_over_json u Hu) as (data & Hout & Hf & Ht).
    unfold find_inaturalist_observation. rewrite Hrun, Ht, bind_prefix.
    rewrite snd_prefix, fst_prefix, requests_app, requests_app.
    rewrite requests_attempts, map_app. cbn [requests map].
    unfold no_match in Hu.
    destruct (accepts (fetched u)) as [e | [|]] eqn:Hacc; try discriminate.
    + split; [simpl; now rewrite app_nil_r | right; now exists e].
    + destruct (report_match_quiet mo_number url_only number_only u (fetched u))
        as [Hq _].
      destruct (report_match mo_number url_only number_only u (fetched u))
        as [[e | b] t] eqn:Hrep; cbn [snd] in Hq.
      * split; [cbn; now rewrite Hq, app_nil_r | right; now exists e].
      * split; [| now left].
        rewrite bind_value, snd_prefix, requests_app, Hq.
        destruct b; simpl; try now rewrite app_nil_r.
        unfold not_found. destruct (url_only || number_only); simpl;
          now rewrite app_nil_r.
Qed.

(** What conformance to the interface gives for one candidate. *)
Lemma conforms_cases (u : string) :
  conforms (outcome u) = true ->
  no_match u = true \/
  exists data obs rest d id,
    outcome u = Json data /\ accepts data = inr true /\
    Py.getitem data "results" = inr (PList (obs :: rest)) /\
    obs = PDict d /\ Py.lookup "id" d = Some (PInt id).
Proof.
  unfold conforms, no_match, fetched.
  destruct (outcome u) as [e | e | data]; [now left | now left |].
  destruct data as [| | | | | | d]; try discriminate.
  unfold well_formed, accepts, Py.getitem.
  destruct (Py.lookup "total_results" d) as [[| | n | | | |] |] eqn:Hn;
    try discriminate.
  destruct (Py.lookup "results" d) as [[| | | | | rs |] |] eqn:Hrs;
    try discriminate.
  assert (Ht : Py.truthy (PDict d) = true)
    by (destruct d; [discriminate | reflexivity]).
  rewrite Ht. cbn [Py.gt0].
  destruct (0 <? n)%Z eqn:Hpos; [| now left].
  intros H. apply andb_prop in H as [Hrec Hne].
  assert (Hle : (n <=? 0)%Z = false) by lia.
  rewrite Hle in Hne. destruct rs as [| obs rest]; [discriminate |].
  cbn [forallb] in Hrec. apply andb_prop in Hrec as [Hobs _].
  unfold is_record in Hobs.
  destruct obs as [| | | | | | d']; try discriminate.
  destruct (Py.lookup "id" d') as [[| | id | | | |] |] eqn:Hid;
    try discriminate.
  right. exists (PDict d), (PDict d'), rest, d', id.
  split; [reflexivity |].
  split; [rewrite Ht, Hn; cbn [Py.gt0]; now rewrite Hpos |].
  split; [now rewrite Hrs | now split].
Qed.

Lemma fails_or_zero_no_match (u : string) :
  fails (outcome u) || zero_results (outcome u) = true -> no_match u = true.
Proof.
  unfold no_match, fetched.
  destruct (outcome u) as [e | e | data]; [reflexivity | reflexivity |].
  cbn [fails orb zero_results].
  destruct data as [| | | | | | d]; try discriminate.
  unfold accepts, Py.getitem.
  destruct (Py.lookup "total_results" d) as [[| | [| p | p] | | | |] |] eqn:Hn;
    try discriminate.
  intros _. destruct d; [discriminate | reflexivity].
Qed.

(** ** The front end *)

Lemma validate_spec (toks : list string) :
  validate toks
  = (inr (valid_numbers toks), map warning_of (filter warned toks)).
Proof.
  unfold valid_numbers.
  induction toks as [| tok toks IH]; [reflexivity |].
  cbn [validate filter]. unfold accepted at 1, warned at 1, PyStr.isdigit.
  destruct (PyStr.nonempty (PyStr.strip tok)); cbn [negb andb].
  - fold (PyStr.isdigit (PyStr.strip tok)).
    destruct (PyStr.all_chars PyStr.isdigit_char (PyStr.strip tok)).
    + rewrite IH, bind_value. cbn [negb map].
      unfold prefix_trace, ret. cbn [fst snd]. now rewrite app_nil_r.
    + cbn [negb map]. unfold print_stderr. rewrite bind_emit, IH. reflexivity.
  - exact IH.
Qed.

Lemma read_file_ok (args : Namespace) :
  unreadable args = false -> read_file args = (inr (tokens args), []).
Proof.
  unfold unreadable, read_file, tokens.
  destruct (file args) as [path |]; [| reflexivity].
  destruct (PyStr.nonempty path); cbn [andb].
  - destruct (open_file path); try discriminate. reflexivity.
  - destruct (open_file path); reflexivity.
Qed.

Lemma read_file_error (args : Namespace) :
  unreadable args = true ->
  exists path,
    file args = Some path /\
    read_file args
    = match open_file path with
      | FileDecodeError => (inl UnicodeDecodeError, [])
      | _ =>
          (inl (SystemExit 1),
           [Print stdout ("Error reading file " ++ path
                          ++ file_error_text (open_file path))])
      end.
Proof.
  unfold unreadable, read_file.
  destruct (file args) as [path |]; [| discriminate].
  destruct (PyStr.nonempty path); [| discriminate]. cbn [andb].
  intros H. exists path. split; [reflexivity |].
  destruct (open_file path); try discriminate; reflexivity.
Qed.

Lemma main_unreadable (args : Namespace) :
  unreadable args = true ->
  exists path,
    file args = Some path /\
    main args
    = match open_file path with
      | FileDecodeError => (inl UnicodeDecodeError, [])
      | _ =>
          (inl (SystemExit 1),
           [Print stdout ("Error reading file " ++ path
                          ++ file_error_text (open_file path))])
      end.
Proof.
  intros H. destruct (read_file_error args H) as (path & Hf & Hr).
  exists path. split; [assumption |].
  unfold main. rewrite Hr. now destruct (open_file path).
Qed.

Lemma main_no_valid (args : Namespace) :
  unreadable args = false ->
  valid_numbers (tokens args) = [] ->
  main args
  = (inl (SystemExit 1),
     (map warning_of (filter warned (tokens args))
      ++ map (Print stdout) no_valid_lines)%list).
Proof.
  intros Hr Hv. unfold main.
  rewrite (read_file_ok args Hr), bind_value, prefix_trace_nil.
  rewrite validate_spec, bind_value, Hv.
  reflexivity.
Qed.

Lemma main_runs (args : Namespace) :
  unreadable args = false ->
  valid_numbers (tokens args) <> [] ->
  main args
  = prefix_trace (map warning_of (filter warned (tokens args)))
      (for_each (resolve args) (valid_numbers (tokens args))).
Proof.
  intros Hr Hv. unfold main.
  rewrite (read_file_ok args Hr), bind_value, prefix_trace_nil.
  rewrite validate_spec, bind_value.
  destruct (valid_numbers (tokens args)); [congruence | reflexivity].
Qed.

Lemma for_each_returns {A : Type} (body : A -> M unit) (l : list A) :
  (forall x, In x l -> fst (body x) = inr tt) ->
  fst (for_each body l) = inr tt.
Proof.
  induction l as [| x l IH]; intros H; [reflexivity |].
  cbn [for_each].
  assert (Hx : fst (body x) = inr tt) by (apply H; now left).
  destruct (body x) as [r t]. cbn [fst] in Hx. subst r.
  rewrite bind_value, fst_prefix. apply IH. intros y Hy. apply H. now right.
Qed.

Lemma requests_map_print (f : stream) (ls : list string) :
  requests (map (Print f) ls) = [].
Proof. induction ls; [reflexivity | assumption]. Qed.

Lemma requests_warnings (toks : list string) :
  requests (map warning_of toks) = [].
Proof. induction toks; [reflexivity | assumption]. Qed.

Lemma printed_stdout_warnings (toks : list string) :
  printed stdout (map warning_of toks) = [].
Proof. induction toks; [reflexivity | assumption]. Qed.

Lemma printed_stderr_warnings (toks : list string) :
  printed stderr (map warning_of toks)
  = map (fun tok => "Warning: Invalid MO number '" ++ PyStr.strip tok
                    ++ "' provided. Skipping.") toks.
Proof.
  induction toks as [| t l IH]; [reflexivity |].
  cbn [map printed warning_of]. now rewrite IH.
Qed.

Lemma printed_same (f : stream) (ls : list string) :
  printed f (map (Print f) ls) = ls.
Proof.
  induction ls as [| l ls IH]; [reflexivity |].
  destruct f; cbn [map printed]; now rewrite IH.
Qed.

Lemma printed_other (ls : list string) :
  printed stderr (map (Print stdout) ls) = [].
Proof. induction ls; [reflexivity | assumption]. Qed.

(** A lookup returns when each candidate keeps to the interface or is
    passed over. *)
Lemma find_returns_gen (mo_number : string)
    (debug_mode url_only number_only : bool) :
  (forall u, In u (mo_urls mo_number) ->
             conforms (outcome u) = true \/ no_match u = true) ->
  fst (find_inaturalist_observation mo_number debug_mode url_only number_only)
  = inr tt.
Proof.
  intros Hapi.
  destruct (try_urls_cases mo_number debug_mode url_only number_only
              (mo_urls mo_number))
    as [[Hall _] | (pre & u & post & Hsplit & Hpre & Hu & _)].
  - now rewrite (find_exhausted _ _ _ _ Hall).
  - assert (Hin : In u (mo_urls mo_number))
      by (rewrite Hsplit; apply in_or_app; right; now left).
    destruct (Hapi u Hin) as [Hc | Hno]; [| congruence].
    destruct (conforms_cases u Hc)
      as [Hno | (data & obs & rest & d & id & Hout & Hacc & Hres & Hobs & Hid)];
      [congruence |].
    rewrite (find_first_match mo_number debug_mode url_only number_only
               pre u post obs).
    + subst obs. now rewrite (format_spec _ _ _ _ _ _ Hid).
    + split; [assumption |]. split; [assumption |]. now exists data, rest.
Qed.

Lemma find_returns (mo_number : string)
    (debug_mode url_only number_only : bool) :
  (forall u, In u (mo_urls mo_number) -> conforms (outcome u) = true) ->
  fst (find_inaturalist_observation mo_number debug_mode url_only number_only)
  = inr tt.
Proof.
  intros H. apply find_returns_gen. intros u Hu. left. now apply H.
Qed.

(** Rewriting the projections of a trace. *)
Create Rewrite HintDb trace.
#[local] Hint Rewrite requests_app requests_attempts requests_map_print
  requests_warnings printed_app printed_attempts printed_same printed_other
  printed_stdout_warnings printed_stderr_warnings app_nil_r : trace.

(** ** The resolver *)

(** C1: for every MO number the resolver builds exactly the six candidate
    URLs, in the documented order; the requests it sends are GETs of the
    observations endpoint with [field:Mushroom Observer URL] set to the
    candidate and [verifiable] set to ["any"], one per candidate, for the
    candidates of an initial segment of that list, so never more than six;
    while the API keeps to its interface the lookup returns, and the
    segment is the whole list unless its last candidate matched; whatever
    the API answers, a shorter segment without a match means that the
    lookup was ended by an exception. *)
Theorem C1_six_candidates_in_order (mo_number : string)
    (debug_mode url_only number_only : bool) :
  let r :=
    find_inaturalist_observation mo_number debug_mode url_only number_only in
  mo_urls mo_number
  = [ "http://mushroomobserver.org/observer/show_observation/" ++ mo_number;
      "https://mushroomobserver.org/observer/show_observation/" ++ mo_number;
      "http://mushroomobserver.org/" ++ mo_number;
      "https://mushroomobserver.org/" ++ mo_number;
      "http://mushroomobserver.org/obs/" ++ mo_number;
      "https://mushroomobserver.org/obs/" ++ mo_number ]
  /\ (forall u,
         request_of u
         = ("https://api.inaturalist.org/v1/observations",
            [ ("field:Mushroom Observer URL", u); ("verifiable", "any") ]))
  /\ length (requests (snd r)) <= 6
  /\ (requests (snd r) = map request_of (mo_urls mo_number)
      \/ exists pre u post,
           mo_urls mo_number = (pre ++ u :: post)%list /\
           requests (snd r) = map request_of (pre ++ [u]) /\
           (accepts (fetched u) = inr true \/ exists e, fst r = inl e))
  /\ ((forall u, In u (mo_urls mo_number) -> conforms (outcome u) = true) ->
      fst r = inr tt /\
      (requests (snd r) = map request_of (mo_urls mo_number)
       \/ exists pre u post,
            mo_urls mo_number = (pre ++ u :: post)%list /\
            requests (snd r) = map request_of (pre ++ [u]) /\
            accepts (fetched u) = inr true)).
Proof.
  cbv zeta.
  split; [reflexivity |]. split; [reflexivity |].
  pose proof (find_requests mo_number debug_mode url_only number_only) as H.
  cbv zeta in H.
  split; [| split].
  - destruct H as [[_ Hreq] | (pre & u & post & Hsplit & _ & _ & Hreq & _)];
      rewrite Hreq, length_map.
    + reflexivity.
    + apply (f_equal (@length string)) in Hsplit.
      rewrite length_app in *. cbn [length mo_urls] in *. lia.
  - destruct H as [[_ Hreq] | (pre & u & post & Hsplit & _ & _ & Hreq & Hend)].
    + now left.
    + right. now exists pre, u, post.
  - intros Hapi.
    pose proof (find_returns mo_number debug_mode url_only number_only Hapi)
      as Hret.
    split; [exact Hret |].
    destruct H as [[_ Hreq] | (pre & u & post & Hsplit & _ & _ & Hreq & Hend)].
    + now left.
    + right. exists pre, u, post. split; [assumption |].
      split; [assumption |].
      destruct Hend as [Hacc | [e He]]; [assumption | congruence].
Qed.

(** C2: in every lookup each candidate queried before the last one was
    passed over, so at most one response is accepted and nothing is queried
    after it; and when [u] is the first candidate not passed over and its
    body is well formed with a positive [total_results], the lookup
    consists of the requests up to [u] followed by the output for the first
    record of the body's [results], with [u] as the matched URL. *)
Theorem C2_first_match_is_accepted (mo_number : string)
    (debug_mode url_only number_only : bool) :
  let r :=
    find_inaturalist_observation mo_number debug_mode url_only number_only in
  ((Forall (fun v => no_match v = true) (mo_urls mo_number) /\
    requests (snd r) = map request_of (mo_urls mo_number))
   \/ exists pre u post,
        mo_urls mo_number = (pre ++ u :: post)%list /\
        Forall (fun v => no_match v = true) pre /\
        no_match u = false /\
        requests (snd r) = map request_of (pre ++ [u]))
  /\ forall pre u post d n,
       mo_urls mo_number = (pre ++ u :: post)%list ->
       Forall (fun v => no_match v = true) pre ->
       outcome u = Json (PDict d) ->
       well_formed (PDict d) = true ->
       Py.lookup "total_results" d = Some (PInt n) ->
       (0 < n)%Z ->
       exists obs rest,
         Py.lookup "results" d = Some (PList (obs :: rest)) /\
         r = prefix_trace (attempts pre ++ [Get base_url (params_of u)])
               (_format_and_print_observation mo_number obs u
                                              url_only number_only) /\
         fst r = inr tt /\
         requests (snd r) = map request_of (pre ++ [u]).
Proof.
  cbv zeta. split.
  - destruct (find_requests mo_number debug_mode url_only number_only)
      as [[Hall Hreq] | (pre & u & post & Hsplit & Hpre & Hu & Hreq & _)].
    + now left.
    + right. now exists pre, u, post.
  - intros pre u post d n Hsplit Hpre Hout Hwf Hn Hpos.
    assert (Hc : conforms (outcome u) = true) by now rewrite Hout.
    destruct (conforms_cases u Hc)
      as [Hno | (data & obs & rest & d' & id & Hout' & Hacc & Hres & Hobs & Hid)].
    + exfalso. unfold no_match, fetched in Hno. rewrite Hout in Hno.
      unfold accepts, Py.getitem in Hno. rewrite Hn in Hno.
      destruct d; [discriminate |]. cbn in Hno.
      destruct (0 <? n)%Z eqn:E; [discriminate | lia].
    + rewrite Hout in Hout'. injection Hout' as <-.
      unfold Py.getitem in Hres.
      destruct (Py.lookup "results" d) as [x |] eqn:Hr; [| discriminate].
      injection Hres as ->.
      exists obs, rest. split; [reflexivity |].
      assert (Hfm : first_match mo_number pre u post obs).
      { split; [assumption |]. split; [assumption |].
        exists (PDict d), rest. split; [assumption |]. split; [assumption |].
        unfold Py.getitem. now rewrite Hr. }
      rewrite (find_first_match mo_number debug_mode url_only number_only
                 pre u post obs Hfm).
      split; [reflexivity |]. subst obs.
      rewrite (format_spec _ _ _ _ _ _ Hid). cbn [fst snd prefix_trace].
      split; [reflexivity |].
      rewrite !requests_app, requests_attempts, map_app. cbn [requests map].
      destruct number_only; [| destruct url_only]; cbn [requests];
        now rewrite app_nil_r.
Qed.

(** C3: a candidate whose request fails in transport or whose body cannot be
    decoded makes the loop log a warning and go on to the next candidate,
    exactly as a candidate with zero results does without the warning; a
    lookup in which every candidate fails or keeps to the interface
    returns; and when every candidate fails or has zero results the lookup
    tries all of them and returns the not-found result. *)
Theorem C3_failure_is_no_match (mo_number : string)
    (debug_mode url_only number_only : bool) :
  (forall u rest,
      match outcome u with
      | RequestException e =>
          try_urls mo_number debug_mode url_only number_only (u :: rest)
          = prefix_trace
              [ Get base_url (params_of u);
                LogWarning
                  ("Network error while contacting iNaturalist API for URL "
                   ++ u ++ ": " ++ e) ]
              (try_urls mo_number debug_mode url_only number_only rest)
      | JSONDecodeError e =>
          try_urls mo_number debug_mode url_only number_only (u :: rest)
          = prefix_trace
              [ Get base_url (params_of u);
                LogWarning
                  ("Error decoding JSON response from iNaturalist API for URL "
                   ++ u ++ ": " ++ e) ]
              (try_urls mo_number debug_mode url_only number_only rest)
      | Json _ => True
      end)
  /\ (forall u rest,
         zero_results (outcome u) = true ->
         try_urls mo_number debug_mode url_only number_only (u :: rest)
         = prefix_trace [Get base_url (params_of u)]
             (try_urls mo_number debug_mode url_only number_only rest))
  /\ ((forall u, In u (mo_urls mo_number) ->
                 fails (outcome u) = true \/ conforms (outcome u) = true) ->
      fst (find_inaturalist_observation mo_number debug_mode
                                        url_only number_only) = inr tt)
  /\ ((forall u, In u (mo_urls mo_number) ->
                 fails (outcome u) = true \/ zero_results (outcome u) = true) ->
      find_inaturalist_observation mo_number debug_mode url_only number_only
      = (inr tt,
         (attempts (mo_urls mo_number)
          ++ map (Print stdout)
                 (not_found_lines mo_number url_only number_only))%list)).
Proof.
  split; [| split; [| split]].
  - intros u rest. rewrite try_urls_step.
    unfold fetched, fetch_trace.
    destruct (outcome u) as [e | e | data]; [reflexivity | reflexivity | exact I].
  - intros u rest Hz. rewrite try_urls_step.
    assert (Hno : no_match u = true)
      by (apply fails_or_zero_no_match; rewrite Hz; apply orb_true_r).
    unfold no_match in Hno.
    assert (Ht : fetch_trace u = [Get base_url (params_of u)])
      by (unfold fetch_trace; destruct (outcome u); (discriminate || reflexivity)).
    rewrite Ht. now destruct (accepts (fetched u)) as [e | [|]].
  - intros H. apply find_returns.
    intros u Hu. destruct (H u Hu) as [Hf | Hc]; [| assumption].
    unfold conforms. now destruct (outcome u).
  - intros H. apply find_exhausted. apply Forall_forall. intros u Hu.
    apply fails_or_zero_no_match.
    destruct (H u Hu) as [-> | ->]; [reflexivity | apply orb_true_r].
Qed.

(** C7: for every match, with the URL-only and the number-only flag both
    set the lookup is the one of number-only mode: the only line printed is
    the id of the first record, for an integer id its decimal digits. *)
Theorem C7_number_only_takes_precedence (mo_number : string) (debug_mode : bool)
    (pre : list string) (u : string) (post : list string)
    (d : list (string * pyval)) (id : pyval) :
  first_match mo_number pre u post (PDict d) ->
  Py.lookup "id" d = Some id ->
  find_inaturalist_observation mo_number debug_mode true true
  = find_inaturalist_observation mo_number debug_mode false true
  /\ fst (find_inaturalist_observation mo_number debug_mode true true) = inr tt
  /\ printed stdout
       (snd (find_inaturalist_observation mo_number debug_mode true true))
     = [py_str id]
  /\ (forall n, id = PInt n -> py_str id = PyStr.of_int n).
Proof.
  intros Hfm Hid.
  rewrite !(find_first_match _ _ _ _ _ _ _ _ Hfm).
  rewrite !(format_spec _ _ _ _ _ _ Hid). cbn [fst snd prefix_trace].
  split; [reflexivity |]. split; [reflexivity |]. split.
  - autorewrite with trace. reflexivity.
  - intros n ->. reflexivity.
Qed.

(** C8: when each of the six candidates fails or has zero results, the
    lookup queries all six, returns, and prints the not-found result of the
    mode: one line saying that the number has no iNaturalist observation
    associated with it in URL-only and in number-only mode, the default
    message and an empty line otherwise. *)
Theorem C8_not_found_result (mo_number : string) (debug_mode : bool) :
  (forall u, In u (mo_urls mo_number) ->
             fails (outcome u) = true \/ zero_results (outcome u) = true) ->
  (forall url_only number_only,
      fst (find_inaturalist_observation mo_number debug_mode
                                        url_only number_only) = inr tt /\
      requests (snd (find_inaturalist_observation mo_number debug_mode
                                                  url_only number_only))
      = map request_of (mo_urls mo_number))
  /\ (forall url_only number_only,
         url_only || number_only = true ->
         printed stdout
           (snd (find_inaturalist_observation mo_number debug_mode
                                              url_only number_only))
         = [ "Mushroom Observer #" ++ mo_number
             ++ " has no iNaturalist observation associated with it." ])
  /\ printed stdout
       (snd (find_inaturalist_observation mo_number debug_mode false false))
     = [ "No iNaturalist observation found for Mushroom Observer #"
         ++ mo_number;
         "" ].
Proof.
  intros H.
  assert (Hall : Forall (fun v => no_match v = true) (mo_urls mo_number)).
  { apply Forall_forall. intros u Hu. apply fails_or_zero_no_match.
    destruct (H u Hu) as [-> | ->]; [reflexivity | apply orb_true_r]. }
  split; [| split].
  - intros url_only number_only.
    rewrite (find_exhausted _ _ _ _ Hall). cbn [fst snd].
    split; [reflexivity |]. now autorewrite with trace.
  - intros url_only number_only Hmode.
    rewrite (find_exhausted _ _ _ _ Hall). cbn [snd].
    autorewrite with trace. unfold not_found_lines. now rewrite Hmode.
  - rewrite (find_exhausted _ _ _ _ Hall). cbn [snd].
    now autorewrite with trace.
Qed.

(** C9: in default mode, for every match whose record is an object with an
    [id], the lookup returns and prints the block: the MO number, the
    iNaturalist URL of the id, the species guess and the place guess, each
    replaced by [N/A] when the record has no such field, the candidate URL
    that matched, and an empty line. *)
Theorem C9_default_block (mo_number : string) (debug_mode : bool)
    (pre : list string) (u : string) (post : list string)
    (d : list (string * pyval)) (id : pyval) :
  first_match mo_number pre u post (PDict d) ->
  Py.lookup "id" d = Some id ->
  fst (find_inaturalist_observation mo_number debug_mode false false) = inr tt
  /\ printed stdout
       (snd (find_inaturalist_observation mo_number debug_mode false false))
     = [ "Mushroom Observer #" ++ mo_number ++ ":";
         "  iNaturalist Observation: https://www.inaturalist.org/observations/"
         ++ py_str id;
         "  Species: " ++ match Py.lookup "species_guess" d with
                          | Some v => py_str v
                          | None => "N/A"
                          end;
         "  Location: " ++ match Py.lookup "place_guess" d with
                           | Some v => py_str v
                           | None => "N/A"
                           end;
         "  Matched URL: " ++ u;
         "" ].
Proof.
  intros Hfm Hid.
  rewrite (find_first_match _ _ _ _ _ _ _ _ Hfm).
  rewrite (format_spec _ _ _ _ _ _ Hid). cbn [fst snd prefix_trace].
  split; [reflexivity |]. autorewrite with trace.
  destruct (Py.lookup "species_guess" d), (Py.lookup "place_guess" d);
    reflexivity.
Qed.

(** ** The front end: validation, exit status and streams *)

Lemma for_each_not_found (args : Namespace) (l : list string) :
  (forall mo u, In mo l -> In u (mo_urls mo) -> no_match u = true) ->
  for_each (resolve args) l
  = (inr tt,
     flat_map (fun mo =>
                 attempts (mo_urls mo)
                 ++ map (Print stdout)
                        (not_found_lines mo (url args) (q args)))%list l).
Proof.
  induction l as [| mo l IH]; intros H; [reflexivity |].
  cbn [for_each flat_map]. unfold resolve at 1.
  rewrite find_exhausted.
  - rewrite bind_value, IH; [reflexivity |].
    intros mo' u Hmo Hu. apply (H mo' u); [now right | assumption].
  - apply Forall_forall. intros u Hu. apply (H mo u); [now left | assumption].
Qed.

Lemma printed_not_found (args : Namespace) (l : list string) :
  printed stdout
    (flat_map (fun mo =>
                 attempts (mo_urls mo)
                 ++ map (Print stdout)
                        (not_found_lines mo (url args) (q args)))%list l)
  = flat_map (fun mo => not_found_lines mo (url args) (q args)) l.
Proof.
  induction l as [| mo l IH]; [reflexivity |].
  cbn [flat_map].
  now rewrite !printed_app, printed_attempts, printed_same, IH.
Qed.

(** C4 (amended): a token is accepted exactly when, after trimming, it is
    not empty and each of its characters is one that [str.isdigit] takes
    for a digit: a decimal digit or, below code point 256, one of the
    superscripts two, three and one; the trimmed token is the token without
    the blanks at its two ends; the accepted tokens are kept trimmed and in
    order, and [main] calls the resolver on each of them. *)
Theorem C4_accepted_tokens (args : Namespace) :
  (forall tok,
      validate [tok] = (inr [PyStr.strip tok], [])
      <-> PyStr.nonempty (PyStr.strip tok) = true
          /\ PyStr.all_chars PyStr.isdigit_char (PyStr.strip tok) = true)
  /\ (forall c,
         PyStr.isdigit_char c = true
         <-> PyStr.is_decimal c = true
             \/ In (PyStr.code c) [178%N; 179%N; 185%N])
  /\ (forall tok,
         (exists l r,
             tok = l ++ PyStr.strip tok ++ r /\
             PyStr.all_chars PyStr.isspace l = true /\
             PyStr.all_chars PyStr.isspace r = true)
         /\ (forall c t, PyStr.strip tok = String c t ->
                         PyStr.isspace c = false)
         /\ (forall t c, PyStr.strip tok = t ++ String c "" ->
                         PyStr.isspace c = false))
  /\ (forall toks,
         fst (validate toks)
         = inr (map PyStr.strip
                    (filter (fun tok => PyStr.isdigit (PyStr.strip tok)) toks)))
  /\ (unreadable args = false ->
      valid_numbers (tokens args) <> [] ->
      main args
      = prefix_trace (map warning_of (filter warned (tokens args)))
          (for_each (fun mo_number =>
                       find_inaturalist_observation mo_number (debug args)
                                                    (url args) (q args))
                    (valid_numbers (tokens args)))).
Proof.
  split; [| split; [| split; [| split]]].
  - intros tok. rewrite validate_spec. unfold valid_numbers.
    cbn [filter]. unfold accepted, warned, PyStr.isdigit.
    destruct (PyStr.nonempty (PyStr.strip tok));
      destruct (PyStr.all_chars PyStr.isdigit_char (PyStr.strip tok));
      cbn; split; intros H; try reflexivity; try discriminate;
      try (now split); destruct H; discriminate.
  - intros c. unfold PyStr.is_decimal, PyStr.isdigit_char. cbn [In].
    rewrite !orb_true_iff, !N.eqb_eq.
    split; [intros [[[H | H] | H] | H] | intros [H | [H | [H | [H | []]]]]];
      auto.
  - apply strip_spec.
  - intros toks. now rewrite validate_spec.
  - apply main_runs.
Qed.

(** C5 (amended): a token that is not empty after trimming and that
    [str.isdigit] rejects gets one warning naming the trimmed token, on the
    error stream and not on the output stream; a token that is empty after
    trimming gets none; either way the token is dropped and the later
    tokens are still processed; and for the arguments 123, abc, 456 the
    resolver is called twice, for 123 and for 456, after the one warning
    for abc. *)
Theorem C5_invalid_tokens_warned (debug_flag url_flag q_flag : bool) :
  (forall toks,
      validate toks
      = (inr (valid_numbers toks), map warning_of (filter warned toks)))
  /\ (forall toks,
         printed stdout (snd (validate toks)) = [] /\
         printed stderr (snd (validate toks))
         = map (fun tok => "Warning: Invalid MO number '" ++ PyStr.strip tok
                           ++ "' provided. Skipping.")
               (filter (fun tok =>
                          PyStr.nonempty (PyStr.strip tok)
                          && negb (PyStr.isdigit (PyStr.strip tok)))
                       toks))
  /\ (forall before tok after,
         fst (validate (before ++ tok :: after))
         = inr (valid_numbers before
                ++ (if PyStr.isdigit (PyStr.strip tok)
                    then [PyStr.strip tok] else [])
                ++ valid_numbers after)%list)
  /\ let args :=
       mkNamespace ["123"; "abc"; "456"] None debug_flag url_flag q_flag in
     main args
     = prefix_trace
         [Print stderr "Warning: Invalid MO number 'abc' provided. Skipping."]
         (resolve args "123" ;; resolve args "456" ;; ret tt).
Proof.
  split; [| split; [| split]].
  - apply validate_spec.
  - intros toks. rewrite validate_spec. cbn [snd]. split.
    + apply printed_stdout_warnings.
    + apply printed_stderr_warnings.
  - intros before tok after. rewrite validate_spec. cbn [fst].
    unfold valid_numbers. rewrite filter_app, map_app. cbn [filter].
    unfold accepted at 2.
    now destruct (PyStr.isdigit (PyStr.strip tok)).
  - cbv zeta. rewrite main_runs; [reflexivity | reflexivity | discriminate].
Qed.

(** C6: the exit status is 1, and no lookup request has been sent, when the
    file cannot be read and when no valid number is left; it is 0 when the
    file, if any, can be read, a valid number is left and the API keeps to
    its interface, in particular when every lookup ends in not-found. *)
Theorem C6_exit_status (args : Namespace) :
  (unreadable args = true ->
   exit_status (fst (main args)) = 1%Z /\
   requests (snd (main args)) = [])
  /\ (unreadable args = false ->
      valid_numbers (tokens args) = [] ->
      fst (main args) = inl (SystemExit 1) /\
      exit_status (fst (main args)) = 1%Z /\
      requests (snd (main args)) = [])
  /\ (unreadable args = false ->
      valid_numbers (tokens args) <> [] ->
      (forall url_ params, conforms (api url_ params) = true) ->
      fst (main args) = inr tt /\
      exit_status (fst (main args)) = 0%Z)
  /\ (unreadable args = false ->
      valid_numbers (tokens args) <> [] ->
      (forall url_ params,
          fails (api url_ params) = true
          \/ zero_results (api url_ params) = true) ->
      fst (main args) = inr tt /\
      exit_status (fst (main args)) = 0%Z /\
      printed stdout (snd (main args))
      = flat_map (fun mo => not_found_lines mo (url args) (q args))
                 (valid_numbers (tokens args))).
Proof.
  split; [| split; [| split]].
  - intros H. destruct (main_unreadable args H) as (path & _ & ->).
    now destruct (open_file path).
  - intros Hr Hv. rewrite (main_no_valid args Hr Hv). cbn [fst snd].
    split; [reflexivity |]. split; [reflexivity |].
    now autorewrite with trace.
  - intros Hr Hv Hapi. rewrite (main_runs args Hr Hv), fst_prefix.
    assert (Hret : fst (for_each (resolve args) (valid_numbers (tokens args)))
                   = inr tt).
    { apply for_each_returns. intros mo _. apply find_returns.
      intros u _. apply Hapi. }
    rewrite Hret. now split.
  - intros Hr Hv Hapi. rewrite (main_runs args Hr Hv).
    rewrite for_each_not_found.
    + cbn [fst snd prefix_trace]. split; [reflexivity |].
      split; [reflexivity |].
      autorewrite with trace. apply printed_not_found.
    + intros mo u _ _. apply fails_or_zero_no_match.
      destruct (Hapi base_url (params_of u)) as [H | H];
        unfold outcome; rewrite H; [reflexivity | apply orb_true_r].
Qed.

(** C10: the message of a file that cannot be read is the only output and
    is printed on the standard output stream, for each of the three kinds
    of failure; the message of a run with no valid number and its usage
    line are printed on the standard output stream, while the error stream
    holds nothing but the warnings for the invalid tokens. *)
Theorem C10_fatal_messages_on_stdout (args : Namespace) :
  (forall path,
      file args = Some path ->
      PyStr.nonempty path = true ->
      match open_file path with
      | FileNotFoundError =>
          snd (main args)
          = [Print stdout ("Error reading file " ++ path
                           ++ ": FileNotFoundError - File not found.")]
      | PermissionError =>
          snd (main args)
          = [Print stdout ("Error reading file " ++ path
                           ++ ": PermissionError - Permission denied.")]
      | IOError e =>
          snd (main args)
          = [Print stdout ("Error reading file " ++ path
                           ++ ": IOError - " ++ e)]
      | FileDecodeError | FileLines _ => True
      end)
  /\ (unreadable args = false ->
      valid_numbers (tokens args) = [] ->
      printed stdout (snd (main args))
      = [ "Error: No valid Mushroom Observer numbers provided.";
          "Usage: python script.py [mo_numbers] [--file FILE] [--debug] [--url] [-q]" ]
      /\ printed stderr (snd (main args))
         = map (fun tok => "Warning: Invalid MO number '" ++ PyStr.strip tok
                           ++ "' provided. Skipping.")
               (filter warned (tokens args))).
Proof.
  split.
  - intros path Hf Hp. unfold main, read_file. rewrite Hf, Hp.
    destruct (open_file path); (exact I || reflexivity).
  - intros Hr Hv. rewrite (main_no_valid args Hr Hv). cbn [snd].
    autorewrite with trace. now split.
Qed.

(** ** Further properties of the resolver and of the front end *)

(** The warning, if any, that fetching a candidate logs. *)
Definition failure_warning (mo_url : string) : list string :=
  match outcome mo_url with
  | Json _ => []
  | RequestException e =>
      [ "Network error while contacting iNaturalist API for URL "
        ++ mo_url ++ ": " ++ e ]
  | JSONDecodeError e =>
      [ "Error decoding JSON response from iNaturalist API for URL "
        ++ mo_url ++ ": " ++ e ]
  end.

(** The exceptions a lookup can end with. *)
Definition lookup_error (e : exn) : bool :=
  match e with
  | KeyError _ | TypeError | IndexError => true
  | _ => false
  end.

(** A token that is empty once trimmed. *)
Definition blank (tok : string) : bool := negb (PyStr.nonempty (PyStr.strip tok)).

(** The namespace of the same run with the lines of the file given as
    arguments instead. *)
Definition with_lines_as_arguments (args : Namespace) (lines : list string)
    : Namespace :=
  mkNamespace (mo_numbers args ++ lines)%list None
              (debug args) (url args) (q args).

(** *** Trimming twice *)

Lemma lstrip_fixed (s : string) :
  (forall c t, s = String c t -> PyStr.isspace c = false) ->
  PyStr.lstrip s = s.
Proof.
  destruct s as [| c t]; [reflexivity |].
  intros H. cbn [PyStr.lstrip]. now rewrite (H c t eq_refl).
Qed.

Lemma rstrip_fixed (s : string) :
  (forall t c, s = t ++ String c "" -> PyStr.isspace c = false) ->
  PyStr.rstrip s = s.
Proof.
  induction s as [| a s IH]; [reflexivity |].
  intros H. cbn [PyStr.rstrip].
  rewrite IH.
  - destruct s as [| b s'].
    + cbn. now rewrite (H "" a eq_refl).
    + cbn. now rewrite andb_false_r.
  - intros t c ->. apply (H (String a t) c). reflexivity.
Qed.

Lemma strip_fixed (s : string) :
  (forall c t, s = String c t -> PyStr.isspace c = false) ->
  (forall t c, s = t ++ String c "" -> PyStr.isspace c = false) ->
  PyStr.strip s = s.
Proof.
  intros Hh Hl. unfold PyStr.strip.
  rewrite (lstrip_fixed s Hh). now apply rstrip_fixed.
Qed.

Lemma strip_idem (s : string) : PyStr.strip (PyStr.strip s) = PyStr.strip s.
Proof.
  destruct (strip_spec s) as (_ & Hh & Hl).
  apply strip_fixed; [exact Hh | exact Hl].
Qed.

Lemma accepted_strip (tok : string) : accepted (PyStr.strip tok) = accepted tok.
Proof. unfold accepted. now rewrite strip_idem. Qed.

Lemma warned_strip (tok : string) : warned (PyStr.strip tok) = warned tok.
Proof. unfold warned. now rewrite strip_idem. Qed.

Lemma warning_of_strip (tok : string) :
  warning_of (PyStr.strip tok) = warning_of tok.
Proof. unfold warning_of. now rewrite strip_idem. Qed.

Lemma valid_numbers_app (a b : list string) :
  valid_numbers (a ++ b) = (valid_numbers a ++ valid_numbers b)%list.
Proof. unfold valid_numbers. now rewrite filter_app, map_app. Qed.

Lemma valid_numbers_file_tokens (lines : list string) :
  valid_numbers (file_tokens lines) = valid_numbers lines.
Proof.
  unfold valid_numbers.
  induction lines as [| l lines IH]; [reflexivity |].
  cbn [file_tokens filter].
  destruct (PyStr.nonempty (PyStr.strip l)) eqn:Hn.
  - cbn [filter]. rewrite accepted_strip.
    destruct (accepted l); cbn [map]; now rewrite ?strip_idem, IH.
  - unfold accepted at 2, PyStr.isdigit. rewrite Hn. exact IH.
Qed.

Lemma warned_file_tokens (lines : list string) :
  map warning_of (filter warned (file_tokens lines))
  = map warning_of (filter warned lines).
Proof.
  induction lines as [| l lines IH]; [reflexivity |].
  cbn [file_tokens filter].
  destruct (PyStr.nonempty (PyStr.strip l)) eqn:Hn.
  - cbn [filter]. rewrite warned_strip.
    destruct (warned l); cbn [map]; now rewrite ?warning_of_strip, IH.
  - unfold warned at 2. rewrite Hn. exact IH.
Qed.

Lemma valid_numbers_map_strip (toks : list string) :
  valid_numbers (map PyStr.strip toks) = valid_numbers toks.
Proof.
  unfold valid_numbers.
  induction toks as [| t toks IH]; [reflexivity |].
  cbn [map filter]. rewrite accepted_strip.
  destruct (accepted t); cbn [map]; now rewrite ?strip_idem, IH.
Qed.

Lemma warned_map_strip (toks : list string) :
  map warning_of (filter warned (map PyStr.strip toks))
  = map warning_of (filter warned toks).
Proof.
  induction toks as [| t toks IH]; [reflexivity |].
  cbn [map filter]. rewrite warned_strip.
  destruct (warned t); cbn [map]; now rewrite ?warning_of_strip, IH.
Qed.

Lemma accepted_not_warned (tok : string) :
  accepted tok = true -> warned tok = false.
Proof.
  unfold accepted, warned. intros ->. cbn. apply andb_false_r.
Qed.

Lemma valid_numbers_fixed (toks : list string) :
  valid_numbers (valid_numbers toks) = valid_numbers toks
  /\ filter warned (valid_numbers toks) = [].
Proof.
  unfold valid_numbers.
  induction toks as [| t toks [IHv IHw]]; [now split |].
  cbn [filter]. destruct (accepted t) eqn:Ha; [| now split].
  cbn [map filter]. rewrite accepted_strip, warned_strip, Ha.
  rewrite (accepted_not_warned t Ha). cbn [map].
  now rewrite strip_idem, IHv, IHw.
Qed.

(** *** The front end *)

(** X10: a readable file adds its lines to the arguments: the run is the one
    in which the lines are given as further arguments, after the positional
    ones, so that a line is trimmed, validated, warned about and looked up
    as an argument of the same text is; an empty [--file] path opens
    nothing. *)
Theorem file_lines_as_arguments (args : Namespace) :
  (forall path lines,
      file args = Some path ->
      PyStr.nonempty path = true ->
      open_file path = FileLines lines ->
      main args = main (with_lines_as_arguments args lines)
      /\ valid_numbers (tokens args)
         = (valid_numbers (mo_numbers args) ++ valid_numbers lines)%list)
  /\ (file args = Some "" ->
      main args = main (with_lines_as_arguments args [])).
Proof.
  split.
  - intros path lines Hf Hp Ho.
    assert (Ht : tokens args = (mo_numbers args ++ file_tokens lines)%list)
      by (unfold tokens; now rewrite Hf, Ho, Hp).
    split.
    + unfold main, read_file. rewrite Hf, Hp, Ho.
      cbn [file with_lines_as_arguments mo_numbers debug url q].
      rewrite !bind_ret, !validate_spec, !bind_value.
      rewrite !valid_numbers_app, !filter_app, !map_app.
      now rewrite valid_numbers_file_tokens, warned_file_tokens.
    + now rewrite Ht, valid_numbers_app, valid_numbers_file_tokens.
  - intros Hf. unfold main, read_file. rewrite Hf.
    cbn [PyStr.nonempty file with_lines_as_arguments mo_numbers debug url q].
    now rewrite app_nil_r.
Qed.

(** X11: validation is idempotent: trimming the tokens beforehand changes
    neither the accepted numbers nor the warnings, and validating the
    accepted numbers again accepts every one of them unchanged, without a
    warning. *)
Theorem validate_idempotent (toks : list string) :
  validate (map PyStr.strip toks) = validate toks
  /\ validate (valid_numbers toks) = (inr (valid_numbers toks), []).
Proof.
  rewrite !validate_spec. split.
  - now rewrite valid_numbers_map_strip, warned_map_strip.
  - destruct (valid_numbers_fixed toks) as [-> ->]. reflexivity.
Qed.

Lemma count_stderr_warnings (toks : list string) :
  length (printed stderr (map warning_of toks)) = length toks.
Proof using.
  induction toks as [| t toks IH]; [reflexivity |].
  cbn [map printed warning_of length]. now rewrite IH.
Qed.

(** X12: the validation loop handles each token in exactly one of three
    ways: it accepts it, warns about it, or drops it without a word
    because it is blank; so accepted numbers, warnings and blank tokens
    add up to the tokens. *)
Theorem validate_partitions_tokens (toks : list string) :
  (forall tok,
      (accepted tok = true /\ warned tok = false /\ blank tok = false)
      \/ (accepted tok = false /\ warned tok = true /\ blank tok = false)
      \/ (accepted tok = false /\ warned tok = false /\ blank tok = true))
  /\ exists valid,
       fst (validate toks) = inr valid /\
       length valid
       + length (printed stderr (snd (validate toks)))
       + length (filter blank toks)
       = length toks.
Proof using.
  clear py_repr api open_file.
  split.
  - intros tok. unfold accepted, warned, blank, PyStr.isdigit.
    destruct (PyStr.nonempty (PyStr.strip tok));
      destruct (PyStr.all_chars PyStr.isdigit_char (PyStr.strip tok));
      cbn; tauto.
  - exists (valid_numbers toks). rewrite validate_spec. cbn [fst snd].
    split; [reflexivity |].
    rewrite count_stderr_warnings. unfold valid_numbers.
    rewrite length_map.
    induction toks as [| t toks IH]; [reflexivity |].
    cbn [filter length].
    unfold accepted at 1, warned at 1, blank at 1, PyStr.isdigit.
    destruct (PyStr.nonempty (PyStr.strip t));
      destruct (PyStr.all_chars PyStr.isdigit_char (PyStr.strip t));
      cbn [andb negb length]; lia.
Qed.

(** *** How a lookup can end *)

Lemma warnings_app (t1 t2 : list event) :
  warnings (t1 ++ t2) = (warnings t1 ++ warnings t2)%list.
Proof.
  induction t1 as [| [u p | f l | m] t1 IH]; cbn [app warnings];
    [reflexivity | | |]; now rewrite IH.
Qed.

Lemma warnings_map_print (f : stream) (ls : list string) :
  warnings (map (Print f) ls) = [].
Proof. induction ls; [reflexivity | assumption]. Qed.

Lemma warnings_attempts (urls : list string) :
  warnings (attempts urls) = flat_map failure_warning urls.
Proof.
  unfold attempts.
  induction urls as [| u urls IH]; cbn [flat_map]; [reflexivity |].
  rewrite warnings_app, IH. f_equal.
  unfold fetch_trace, failure_warning. now destruct (outcome u).
Qed.

Lemma accepts_error (data : pyval) (e : exn) :
  accepts data = inl e -> lookup_error e = true.
Proof.
  unfold accepts. destruct (Py.truthy data); [| discriminate].
  destruct data as [| | | | | | d]; cbn [Py.getitem];
    try (intros [= <-]; reflexivity).
  destruct (Py.lookup "total_results" d) as [v |];
    [| intros [= <-]; reflexivity].
  destruct v; cbn [Py.gt0]; try discriminate; intros [= <-]; reflexivity.
Qed.

(** Formatting a record either raises at once or prints one of the three
    outputs of a record with an [id]. *)
Lemma format_cases (mo_number : string) (obs : pyval) (matched : string)
    (url_only number_only : bool) :
  (exists e,
      lookup_error e = true /\
      _format_and_print_observation mo_number obs matched url_only number_only
      = (inl e, []))
  \/ (exists d id, obs = PDict d /\ Py.lookup "id" d = Some id).
Proof.
  destruct obs as [| | | | | | d];
    try (left; exists TypeError; split; reflexivity).
  destruct (Py.lookup "id" d) as [id |] eqn:Hid.
  - right. now exists d, id.
  - left. exists (KeyError (PStr "id")). split; [reflexivity |].
    unfold _format_and_print_observation, Py.getitem. now rewrite Hid.
Qed.

Lemma report_match_cases (mo_number : string) (url_only number_only : bool)
    (u : string) (data : pyval) :
  (exists e,
      lookup_error e = true /\
      report_match mo_number url_only number_only u data = (inl e, []))
  \/ (exists d id rest,
         Py.getitem data "results" = inr (PList (PDict d :: rest)) /\
         Py.lookup "id" d = Some id).
Proof.
  unfold report_match.
  destruct (Py.getitem data "results") as [e | results] eqn:Hres.
  { left. exists e. split; [| reflexivity].
    unfold Py.getitem in Hres. destruct data as [| | | | | | d];
      try (injection Hres as <-; reflexivity).
    destruct (Py.lookup "results" d); [discriminate |].
    injection Hres as <-. reflexivity. }
  rewrite bind_eval_inr.
  destruct (Py.getitem0 results) as [e | first] eqn:H0.
  { left. exists e. split; [| reflexivity].
    destruct results as [| | | | [| c s] | [| x l] |]; cbn in H0;
      try discriminate; injection H0 as <-; reflexivity. }
  rewrite bind_eval_inr.
  destruct (format_cases mo_number first u url_only number_only)
    as [(e & He & Hf) | (d & id & -> & Hid)].
  - left. exists e. split; [assumption |]. now rewrite Hf.
  - right. destruct results as [| | | | [| c s] | [| x l] |]; cbn in H0;
      try discriminate; injection H0 as H0; try discriminate.
    subst x. now exists d, id, l.
Qed.

(** A lookup ends in one of three ways: every candidate is passed over;
    the first candidate not passed over raises; or it is a match whose
    first record has an [id]. *)
Lemma find_cases (mo_number : string) (debug_mode url_only number_only : bool) :
  let r :=
    find_inaturalist_observation mo_number debug_mode url_only number_only in
  (Forall (fun v => no_match v = true) (mo_urls mo_number) /\
   r = (inr tt,
        (attempts (mo_urls mo_number)
         ++ map (Print stdout)
                (not_found_lines mo_number url_only number_only))%list))
  \/ (exists pre u post e,
         mo_urls mo_number = (pre ++ u :: post)%list /\
         Forall (fun v => no_match v = true) pre /\
         fails (outcome u) = false /\
         lookup_error e = true /\
         r = (inl e, (attempts pre ++ [Get base_url (params_of u)])%list))
  \/ (exists pre u post d id,
         first_match mo_number pre u post (PDict d) /\
         Py.lookup "id" d = Some id /\
         r = prefix_trace (attempts pre ++ [Get base_url (params_of u)])
               (_format_and_print_observation mo_number (PDict d) u
                                              url_only number_only)).
Proof.
  cbv zeta.
  destruct (try_urls_cases mo_number debug_mode url_only number_only
              (mo_urls mo_number))
    as [[Hall _] | (pre & u & post & Hsplit & Hpre & Hu & Hrun)].
  { left. split; [assumption |]. now apply find_exhausted. }
  right.
  destruct (not_passed_over_json u Hu) as (data & Hout & Hf & Ht).
  assert (Hfails : fails (outcome u) = false) by now rewrite Hout.
  assert (Hraise : forall e,
             lookup_error e = true ->
             try_urls mo_number debug_mode url_only number_only
                      (mo_urls mo_number)
             = (inl e, (attempts pre ++ [Get base_url (params_of u)])%list) ->
             exists pre0 u0 post0 e0,
               mo_urls mo_number = (pre0 ++ u0 :: post0)%list /\
               Forall (fun v => no_match v = true) pre0 /\
               fails (outcome u0) = false /\
               lookup_error e0 = true /\
               find_inaturalist_observation mo_number debug_mode
                                            url_only number_only
               = (inl e0, (attempts pre0 ++ [Get base_url (params_of u0)])%list)).
  { intros e He Hm. exists pre, u, post, e.
    repeat (split; [assumption |]).
    unfold find_inaturalist_observation. now rewrite Hm. }
  rewrite Ht in Hrun. unfold no_match in Hu.
  destruct (accepts (fetched u)) as [e | [|]] eqn:Hacc; try discriminate.
  - left. apply (Hraise e); [now apply (accepts_error (fetched u)) |].
    rewrite Hrun. unfold prefix_trace. cbn [fst snd]. now rewrite app_nil_r.
  - destruct (report_match_cases mo_number url_only number_only u (fetched u))
      as [(e & He & Hm) | (d & id & rest & Hres & Hid)].
    + left. apply (Hraise e He).
      rewrite Hrun, Hm. unfold prefix_trace. cbn [fst snd].
      now rewrite app_nil_r.
    + right. exists pre, u, post, d, id.
      assert (Hfm : first_match mo_number pre u post (PDict d)).
      { split; [assumption |]. split; [assumption |].
        rewrite Hf in Hacc, Hres. exists data, rest. now repeat split. }
      split; [assumption |]. split; [assumption |].
      now apply (find_first_match _ _ _ _ pre u post).
Qed.

Lemma format_projections (mo_number : string) (d : list (string * pyval))
    (matched : string) (url_only number_only : bool) (id : pyval) :
  Py.lookup "id" d = Some id ->
  let m := _format_and_print_observation mo_number (PDict d) matched
                                         url_only number_only in
  fst m = inr tt /\
  requests (snd m) = [] /\
  warnings (snd m) = [] /\
  printed stderr (snd m) = [] /\
  printed stdout (snd m) <> [] /\
  (url_only || number_only = true -> length (printed stdout (snd m)) = 1).
Proof.
  intros Hid. cbv zeta. rewrite (format_spec _ _ _ _ _ _ Hid).
  destruct number_only; [| destruct url_only]; cbn;
    repeat split; try discriminate; try reflexivity.
Qed.

(** X1: in URL-only mode, for every match whose first record has an [id],
    the lookup returns and its only output line is the iNaturalist URL of
    that id. *)
Theorem url_only_prints_the_url (mo_number : string) (debug_mode : bool)
    (pre : list string) (u : string) (post : list string)
    (d : list (string * pyval)) (id : pyval) :
  first_match mo_number pre u post (PDict d) ->
  Py.lookup "id" d = Some id ->
  fst (find_inaturalist_observation mo_number debug_mode true false) = inr tt
  /\ printed stdout
       (snd (find_inaturalist_observation mo_number debug_mode true false))
     = [ "https://www.inaturalist.org/observations/" ++ py_str id ]
  /\ (forall n,
         id = PInt n ->
         py_str id = PyStr.of_int n).
Proof.
  intros Hfm Hid.
  rewrite (find_first_match _ _ _ _ _ _ _ _ Hfm).
  rewrite (format_spec _ _ _ _ _ _ Hid). cbn [fst snd prefix_trace].
  split; [reflexivity |]. split.
  - autorewrite with trace. reflexivity.
  - intros n ->. reflexivity.
Qed.


(** X3: a lookup logs one warning for each candidate it queried whose
    request failed, in the order of the candidates, naming the candidate
    and the error; a decoded body logs none. *)
Theorem one_warning_per_failed_request (mo_number : string)
    (debug_mode url_only number_only : bool) :
  let r :=
    find_inaturalist_observation mo_number debug_mode url_only number_only in
  exists queried rest,
    mo_urls mo_number = (queried ++ rest)%list /\
    requests (snd r) = map request_of queried /\
    warnings (snd r) = flat_map failure_warning queried /\
    length (warnings (snd r))
    = length (filter (fun u => fails (outcome u)) queried).
Proof.
  cbv zeta.
  assert (Hlen : forall l,
             length (flat_map failure_warning l)
             = length (filter (fun u => fails (outcome u)) l)).
  { induction l as [| v l IH]; [reflexivity |].
    cbn [flat_map filter]. rewrite length_app, IH.
    unfold failure_warning, fails. now destruct (outcome v). }
  assert (Hlast : forall pre v,
             fails (outcome v) = false ->
             flat_map failure_warning (pre ++ [v])
             = flat_map failure_warning pre).
  { intros pre v Hv. rewrite flat_map_app. cbn [flat_map].
    unfold failure_warning. unfold fails in Hv.
    destruct (outcome v); try discriminate. now rewrite !app_nil_r. }
  destruct (find_cases mo_number debug_mode url_only number_only)
    as [[_ Hr] | [(pre & u & post & e & Hsplit & _ & Hu & _ & Hr)
                 | (pre & u & post & d & id & Hfm & Hid & Hr)]].
  - exists (mo_urls mo_number), []. rewrite Hr. cbn [snd].
    rewrite requests_app, warnings_app, requests_attempts, warnings_attempts.
    rewrite requests_map_print, warnings_map_print, !app_nil_r.
    repeat split. apply Hlen.
  - exists (pre ++ [u])%list, post. rewrite Hr. cbn [snd].
    rewrite requests_app, warnings_app, requests_attempts, warnings_attempts.
    rewrite map_app, (Hlast pre u Hu). cbn [requests warnings map].
    rewrite app_nil_r, <- app_assoc.
    split; [exact Hsplit |]. split; [reflexivity |]. split; [reflexivity |].
    rewrite <- (Hlast pre u Hu). apply Hlen.
  - destruct Hfm as (Hsplit & Hpre & data & rest & Hout & _).
    assert (Hu : fails (outcome u) = false) by now rewrite Hout.
    destruct (format_projections mo_number d u url_only number_only id Hid)
      as (_ & Hreq & Hwarn & _).
    exists (pre ++ [u])%list, post. rewrite Hr, snd_prefix.
    rewrite !requests_app, !warnings_app, requests_attempts, warnings_attempts.
    rewrite Hreq, Hwarn, map_app, (Hlast pre u Hu). cbn [requests warnings map].
    rewrite !app_nil_r, <- app_assoc.
    split; [exact Hsplit |]. split; [reflexivity |]. split; [reflexivity |].
    rewrite <- (Hlast pre u Hu). apply Hlen.
Qed.

Lemma attempts_decoded (urls : list string) :
  Forall (fun u => fails (outcome u) = false) urls ->
  attempts urls = map (fun u => Get base_url (params_of u)) urls.
Proof.
  unfold attempts. induction 1 as [| u urls Hu _ IH]; [reflexivity |].
  cbn [flat_map map]. rewrite IH. unfold fetch_trace.
  unfold fails in Hu. now destruct (outcome u).
Qed.

Lemma find_raises_at (mo_number : string)
    (debug_mode url_only number_only : bool)
    (pre : list string) (u : string) (post : list string)
    (data : pyval) (e : exn) :
  mo_urls mo_number = (pre ++ u :: post)%list ->
  Forall (fun v => no_match v = true) pre ->
  outcome u = Json data ->
  accepts data = inl e
  \/ (accepts data = inr true /\
      report_match mo_number url_only number_only u data = (inl e, [])) ->
  find_inaturalist_observation mo_number debug_mode url_only number_only
  = (inl e, (attempts pre ++ [Get base_url (params_of u)])%list).
Proof.
  intros Hsplit Hpre Hout Hcase.
  unfold find_inaturalist_observation. rewrite Hsplit.
  rewrite (try_urls_skip _ _ _ _ _ _ Hpre), try_urls_step.
  assert (Hf : fetched u = data) by (unfold fetched; now rewrite Hout).
  assert (Ht : fetch_trace u = [Get base_url (params_of u)])
    by (unfold fetch_trace; now rewrite Hout).
  rewrite Hf, Ht, prefix_trace_app.
  destruct Hcase as [-> | [-> ->]];
    unfold prefix_trace, bind; cbn [fst snd]; now rewrite app_nil_r.
Qed.

(** X4: a decoded body that Python takes for false, such as [null], an empty
    object or an empty array, is passed over without an error and without
    a warning; when all six bodies are so, the lookup ends as not found. *)
Theorem falsy_body_is_passed_over (mo_number : string)
    (debug_mode url_only number_only : bool) :
  (forall u rest data,
      outcome u = Json data ->
      Py.truthy data = false ->
      try_urls mo_number debug_mode url_only number_only (u :: rest)
      = prefix_trace [Get base_url (params_of u)]
          (try_urls mo_number debug_mode url_only number_only rest))
  /\ ((forall u, In u (mo_urls mo_number) ->
                 exists data, outcome u = Json data /\ Py.truthy data = false) ->
      find_inaturalist_observation mo_number debug_mode url_only number_only
      = (inr tt,
         (map (fun u => Get base_url (params_of u)) (mo_urls mo_number)
          ++ map (Print stdout)
                 (not_found_lines mo_number url_only number_only))%list))
  /\ Forall (fun v => Py.truthy v = false)
            [ PNone; PBool false; PInt 0; PStr ""; PList []; PDict [] ].
Proof.
  split; [| split].
  - intros u rest data Hout Hfalse. rewrite try_urls_step.
    unfold fetched, fetch_trace, accepts. now rewrite Hout, Hfalse.
  - intros H.
    rewrite find_exhausted.
    + rewrite attempts_decoded; [reflexivity |].
      apply Forall_forall. intros u Hu.
      destruct (H u Hu) as (data & -> & _). reflexivity.
    + apply Forall_forall. intros u Hu.
      destruct (H u Hu) as (data & Hout & Hfalse).
      unfold no_match, fetched, accepts. now rewrite Hout, Hfalse.
  - repeat constructor.
Qed.

(** X5: the first candidate that is not passed over ends the lookup with an
    exception, after its request and before any output, when its decoded
    body is not of the expected shape: [TypeError] for a true value that is
    not an object, [KeyError] for an object without [total_results], and,
    once the count is positive, [KeyError] for no [results], [IndexError]
    for an empty [results] and [KeyError] for a first record without
    [id]. *)
Theorem body_shape_errors (mo_number : string)
    (debug_mode url_only number_only : bool)
    (pre : list string) (u : string) (post : list string) (data : pyval) :
  mo_urls mo_number = (pre ++ u :: post)%list ->
  Forall (fun v => no_match v = true) pre ->
  outcome u = Json data ->
  Py.truthy data = true ->
  let r :=
    find_inaturalist_observation mo_number debug_mode url_only number_only in
  let t := (attempts pre ++ [Get base_url (params_of u)])%list in
  ((forall d, data <> PDict d) -> r = (inl TypeError, t))
  /\ forall d,
       data = PDict d ->
       (Py.lookup "total_results" d = None ->
        r = (inl (KeyError (PStr "total_results")), t))
       /\ forall n,
            Py.lookup "total_results" d = Some (PInt n) ->
            (0 < n)%Z ->
            (Py.lookup "results" d = None ->
             r = (inl (KeyError (PStr "results")), t))
            /\ (Py.lookup "results" d = Some (PList []) ->
                r = (inl IndexError, t))
            /\ (forall rec rest,
                   Py.lookup "results" d = Some (PList (PDict rec :: rest)) ->
                   Py.lookup "id" rec = None ->
                   r = (inl (KeyError (PStr "id")), t)).
Proof.
  intros Hsplit Hpre Hout Htrue. cbv zeta.
  pose proof (fun e => find_raises_at mo_number debug_mode url_only number_only
                         pre u post data e Hsplit Hpre Hout) as Hraise.
  split.
  - intros Hnd. apply Hraise. left. unfold accepts. rewrite Htrue.
    destruct data as [| | | | | | d]; try reflexivity.
    now destruct (Hnd d).
  - intros d ->. split.
    + intros Hn. apply Hraise. left.
      unfold accepts, Py.getitem. now rewrite Htrue, Hn.
    + intros n Hn Hpos.
      assert (Hacc : accepts (PDict d) = inr true).
      { unfold accepts, Py.getitem. rewrite Htrue, Hn. cbn [Py.gt0].
        f_equal. now apply Z.ltb_lt. }
      split; [| split].
      * intros Hres. apply Hraise. right. split; [assumption |].
        unfold report_match, Py.getitem. now rewrite Hres.
      * intros Hres. apply Hraise. right. split; [assumption |].
        unfold report_match, Py.getitem. now rewrite Hres.
      * intros rec rest Hres Hid. apply Hraise. right. split; [assumption |].
        unfold report_match, Py.getitem. rewrite Hres, bind_eval_inr.
        cbn [Py.getitem0]. rewrite bind_eval_inr.
        unfold _format_and_print_observation, Py.getitem. now rewrite Hid.
Qed.

(** *** The loop over the numbers *)

Lemma for_each_all_return {A : Type} (body : A -> M unit) (l : list A) :
  (forall x, In x l -> fst (body x) = inr tt) ->
  for_each body l = (inr tt, flat_map (fun x => snd (body x)) l).
Proof.
  induction l as [| x l IH]; intros H; [reflexivity |].
  cbn [for_each flat_map].
  assert (Hx : fst (body x) = inr tt) by (apply H; now left).
  destruct (body x) as [r t]. cbn [fst snd] in *. subst r.
  rewrite bind_value, IH; [reflexivity |].
  intros y Hy. apply H. now right.
Qed.

Lemma for_each_stops {A : Type} (body : A -> M unit)
    (l1 : list A) (x : A) (l2 : list A) (e : exn) :
  (forall y, In y l1 -> fst (body y) = inr tt) ->
  fst (body x) = inl e ->
  for_each body (l1 ++ x :: l2)
  = (inl e, (flat_map (fun y => snd (body y)) l1 ++ snd (body x))%list).
Proof.
  induction l1 as [| y l1 IH]; intros H Hx.
  - cbn [app for_each flat_map].
    destruct (body x) as [r t]. cbn [fst snd] in *. now subst r.
  - cbn [app for_each flat_map].
    assert (Hy : fst (body y) = inr tt) by (apply H; now left).
    destruct (body y) as [r t]. cbn [fst snd] in *. subst r.
    rewrite bind_value, IH; [| intros z Hz; apply H; now right | assumption].
    unfold prefix_trace. cbn [fst snd]. now rewrite app_assoc.
Qed.




Lemma find_raises_quietly (mo_number : string)
    (debug_mode url_only number_only : bool) :
  let r :=
    find_inaturalist_observation mo_number debug_mode url_only number_only in
  printed stderr (snd r) = []
  /\ forall e, fst r = inl e ->
               lookup_error e = true /\ printed stdout (snd r) = [].
Proof.
  cbv zeta.
  destruct (find_cases mo_number debug_mode url_only number_only)
    as [[_ Hr] | [(pre & u & post & e & _ & _ & _ & He & Hr)
                 | (pre & u & post & d & id & _ & Hid & Hr)]];
    rewrite Hr.
  - cbn [fst snd]. autorewrite with trace. split; [reflexivity | discriminate].
  - cbn [fst snd]. autorewrite with trace. cbn.
    split; [reflexivity | intros e' [= <-]; now split].
  - destruct (format_projections mo_number d u url_only number_only id Hid)
      as (Hret & _ & _ & Herr & _).
    rewrite fst_prefix, snd_prefix, Hret. autorewrite with trace.
    cbn [printed app]. rewrite Herr. split; [reflexivity | discriminate].
Qed.

Lemma find_one_line (mo_number : string)
    (debug_mode url_only number_only : bool) :
  (forall u, In u (mo_urls mo_number) -> conforms (outcome u) = true) ->
  url_only || number_only = true ->
  length (printed stdout
            (snd (find_inaturalist_observation mo_number debug_mode
                                               url_only number_only))) = 1.
Proof.
  intros Hapi Hmode.
  pose proof (find_returns mo_number debug_mode url_only number_only Hapi)
    as Hret.
  destruct (find_cases mo_number debug_mode url_only number_only)
    as [[_ Hr] | [(pre & u & post & e & _ & _ & _ & He & Hr)
                 | (pre & u & post & d & id & _ & Hid & Hr)]];
    rewrite Hr in *.
  - cbn [snd]. autorewrite with trace. unfold not_found_lines.
    now rewrite Hmode.
  - discriminate Hret.
  - destruct (format_projections mo_number d u url_only number_only id Hid)
      as (_ & _ & _ & _ & _ & Hone).
    rewrite snd_prefix. autorewrite with trace. cbn [printed app].
    now apply Hone.
Qed.

Lemma printed_flat_map {A : Type} (f : stream) (g : A -> list event)
    (l : list A) :
  printed f (flat_map g l) = flat_map (fun x => printed f (g x)) l.
Proof.
  induction l as [| x l IH]; [now destruct f |].
  cbn [flat_map]. now rewrite printed_app, IH.
Qed.

Lemma requests_flat_map {A : Type} (g : A -> list event) (l : list A) :
  requests (flat_map g l) = flat_map (fun x => requests (g x)) l.
Proof.
  induction l as [| x l IH]; [reflexivity |].
  cbn [flat_map]. now rewrite requests_app, IH.
Qed.

Lemma length_flat_map_ones {A B : Type} (g : A -> list B) (l : list A) :
  (forall x, length (g x) = 1) -> length (flat_map g l) = length l.
Proof.
  intros H. induction l as [| x l IH]; [reflexivity |].
  cbn [flat_map length]. rewrite length_app, H, IH. reflexivity.
Qed.

(** X6: an exception in a lookup ends the run: the numbers after it are not
    looked up, the exit status is 1, and the output is that of the lookups
    before it. *)
Theorem main_stops_at_first_exception (args : Namespace)
    (l1 : list string) (mo : string) (l2 : list string) (e : exn) :
  unreadable args = false ->
  valid_numbers (tokens args) = (l1 ++ mo :: l2)%list ->
  (forall m, In m l1 -> fst (resolve args m) = inr tt) ->
  fst (resolve args mo) = inl e ->
  fst (main args) = inl e
  /\ exit_status (fst (main args)) = 1%Z
  /\ requests (snd (main args))
     = flat_map (fun m => requests (snd (resolve args m))) (l1 ++ [mo])
  /\ printed stdout (snd (main args))
     = flat_map (fun m => printed stdout (snd (resolve args m))) l1.
Proof.
  intros Hr Hv Hl1 He.
  assert (Hne : valid_numbers (tokens args) <> [])
    by (rewrite Hv; now destruct l1).
  rewrite (main_runs args Hr Hne), Hv, (for_each_stops _ l1 mo l2 e Hl1 He).
  cbn [fst snd prefix_trace].
  destruct (find_raises_quietly mo (debug args) (url args) (q args))
    as [_ Hq].
  destruct (Hq e He) as [Hkind Hout].
  split; [reflexivity |]. split; [| split].
  - destruct e; try discriminate; reflexivity.
  - rewrite !requests_app, requests_warnings, requests_flat_map, flat_map_app.
    cbn [flat_map app]. now rewrite app_nil_r.
  - rewrite !printed_app, printed_stdout_warnings, printed_flat_map.
    unfold resolve at 2. rewrite Hout. cbn [app]. now rewrite app_nil_r.
Qed.


(** X8: with [--url] or [-q], while the API keeps to its interface, a run
    prints exactly one line for each valid number, in the order of the
    numbers, be the number found or not. *)
Theorem one_line_per_number (args : Namespace) :
  unreadable args = false ->
  valid_numbers (tokens args) <> [] ->
  (forall url_ params, conforms (api url_ params) = true) ->
  url args || q args = true ->
  fst (main args) = inr tt
  /\ printed stdout (snd (main args))
     = flat_map (fun mo => printed stdout (snd (resolve args mo)))
                (valid_numbers (tokens args))
  /\ (forall mo, length (printed stdout (snd (resolve args mo))) = 1)
  /\ length (printed stdout (snd (main args)))
     = length (valid_numbers (tokens args)).
Proof.
  intros Hr Hv Hapi Hmode.
  assert (Hret : forall mo, fst (resolve args mo) = inr tt)
    by (intros mo; apply find_returns; intros u _; apply Hapi).
  assert (Hone : forall mo, length (printed stdout (snd (resolve args mo))) = 1)
    by (intros mo; apply find_one_line; [intros u _; apply Hapi | exact Hmode]).
  rewrite (main_runs args Hr Hv).
  rewrite (for_each_all_return (resolve args) _ (fun mo _ => Hret mo)).
  cbn [fst snd prefix_trace].
  rewrite printed_app, printed_stdout_warnings, printed_flat_map. cbn [app].
  split; [reflexivity |]. split; [reflexivity |]. split; [exact Hone |].
  now apply length_flat_map_ones.
Qed.


(** *** The candidates of a number *)

Lemma length_append (a b : string) :
  String.length (a ++ b) = String.length a + String.length b.
Proof. induction a as [| c a IH]; [reflexivity |]. cbn. now rewrite IH. Qed.

Lemma request_of_injective (u v : string) : request_of u = request_of v -> u = v.
Proof. unfold request_of, params_of. now intros [= ->]. Qed.

Lemma NoDup_app_left {A : Type} (l1 l2 : list A) : NoDup (l1 ++ l2) -> NoDup l1.
Proof.
  induction l1 as [| x l1 IH]; [constructor |].
  cbn. intros H. inversion H as [| ? ? Hx Hl]; subst.
  constructor; [| now apply IH].
  intros Hin. apply Hx. apply in_or_app. now left.
Qed.

Lemma NoDup_map_injective {A B : Type} (f : A -> B) (l : list A) :
  (forall a b, f a = f b -> a = b) -> NoDup l -> NoDup (map f l).
Proof.
  intros Hf. induction 1 as [| x l Hx _ IH]; cbn [map]; constructor;
    [| assumption].
  intros Hin. apply in_map_iff in Hin as (y & Hy & Hin).
  apply Hf in Hy. now subst y.
Qed.

Lemma mo_urls_distinct (mo_number : string) : NoDup (mo_urls mo_number).
Proof.
  apply (NoDup_map_inv (@String.length)).
  unfold mo_urls. cbn [map]. rewrite !length_append.
  cbn [String.length].
  repeat (constructor; [cbn [In]; lia |]). constructor.
Qed.

(** Strips a common literal prefix off an equation between strings. *)
Ltac peel H :=
  repeat (cbn [append] in H; first [discriminate H | injection H as H]).

(** X13: the six candidates of a number are pairwise distinct, so that a
    lookup never sends the same request twice. *)
Theorem no_request_is_repeated (mo_number : string)
    (debug_mode url_only number_only : bool) :
  NoDup (mo_urls mo_number)
  /\ NoDup (requests
              (snd (find_inaturalist_observation mo_number debug_mode
                                                 url_only number_only))).
Proof.
  split; [apply mo_urls_distinct |].
  pose proof (mo_urls_distinct mo_number) as Hnd.
  destruct (find_requests mo_number debug_mode url_only number_only)
    as [[_ Hreq] | (pre & u & post & Hsplit & _ & _ & Hreq & _)];
    rewrite Hreq.
  - apply NoDup_map_injective; [| assumption].
    intros a b. apply request_of_injective.
  - apply NoDup_map_injective.
    + intros a b. apply request_of_injective.
    + rewrite Hsplit in Hnd.
      change (u :: post) with ([u] ++ post)%list in Hnd.
      rewrite app_assoc in Hnd. now apply NoDup_app_left in Hnd.
Qed.

(** X14: a candidate URL belongs to one number only, among the numbers that
    pass validation: two numbers made of digits that share a candidate are
    the same number.  Digits are needed: the bare-id candidate of [obs/5]
    is the obs candidate of [5]. *)
Theorem candidate_identifies_the_number (m1 m2 u : string) :
  (PyStr.isdigit m1 = true ->
   PyStr.isdigit m2 = true ->
   In u (mo_urls m1) -> In u (mo_urls m2) -> m1 = m2)
  /\ (In "http://mushroomobserver.org/obs/5" (mo_urls "obs/5")
      /\ In "http://mushroomobserver.org/obs/5" (mo_urls "5")).
Proof using.
  clear py_repr api open_file.
  split.
  - intros H1 H2 Hu1 Hu2.
    assert (Hd1 : forall c s, m1 = String c s -> PyStr.isdigit_char c = true).
    { intros c s ->. unfold PyStr.isdigit in H1. cbn in H1.
      now apply andb_prop in H1 as [H1 _]. }
    assert (Hd2 : forall c s, m2 = String c s -> PyStr.isdigit_char c = true).
    { intros c s ->. unfold PyStr.isdigit in H2. cbn in H2.
      now apply andb_prop in H2 as [H2 _]. }
    unfold mo_urls in Hu1, Hu2. cbn [In] in Hu1, Hu2.
    destruct Hu1 as [E1 | [E1 | [E1 | [E1 | [E1 | [E1 | []]]]]]];
      destruct Hu2 as [E2 | [E2 | [E2 | [E2 | [E2 | [E2 | []]]]]]];
      rewrite <- E1 in E2; clear E1; peel E2;
      first [ symmetry; exact E2
            | exact E2
            | exfalso;
              first [ pose proof (Hd1 _ _ E2) as Hc
                    | pose proof (Hd2 _ _ (eq_sym E2)) as Hc
                    | pose proof (Hd2 _ _ E2) as Hc
                    | pose proof (Hd1 _ _ (eq_sym E2)) as Hc ];
              discriminate Hc ].
  - split; cbn; tauto.
Qed.

(** X15: a run whose lookups all return is its warnings followed by the
    lookups of the valid numbers one after the other, each exactly as it
    is on its own: nothing is kept from one lookup to the next, and a
    number given twice is looked up twice. *)
Theorem run_is_the_sequence_of_lookups (args : Namespace) :
  unreadable args = false ->
  valid_numbers (tokens args) <> [] ->
  (forall mo, In mo (valid_numbers (tokens args)) ->
              fst (resolve args mo) = inr tt) ->
  main args
  = (inr tt,
     (map warning_of (filter warned (tokens args))
      ++ flat_map (fun mo => snd (resolve args mo))
                  (valid_numbers (tokens args)))%list).
Proof.
  intros Hr Hv Hret.
  rewrite (main_runs args Hr Hv).
  now rewrite (for_each_all_return (resolve args) _ Hret).
Qed.

End Program.

(** ** The properties on the fixtures *)

(** Observation 67890 is on record under its fourth candidate only: four
    requests, and the lookup returns. *)
Lemma C1_witness :
  (forall u, In u (mo_urls "67890") ->
             conforms (outcome Mock.api_fourth u) = true)
  /\ fst (find_inaturalist_observation Mock.repr_unused Mock.api_fourth
            "67890" false false false) = inr tt
  /\ length (requests
               (snd (find_inaturalist_observation Mock.repr_unused
                       Mock.api_fourth "67890" false false false))) <= 6.
Proof.
  assert (H : forall u, In u (mo_urls "67890") ->
                        conforms (outcome Mock.api_fourth u) = true).
  { intros u _. unfold outcome, Mock.api_fourth, params_of.
    destruct (String.eqb u "https://mushroomobserver.org/67890"); reflexivity. }
  split; [exact H |].
  destruct (C1_six_candidates_in_order Mock.repr_unused Mock.api_fourth
              "67890" false false false) as (_ & _ & Hlen & _ & Hret).
  split; [exact (proj1 (Hret H)) | exact Hlen].
Defined.

Lemma C2_witness :
  requests
    (snd (find_inaturalist_observation Mock.repr_unused Mock.api_fourth
            "67890" false false false))
  = map request_of
        [ "http://mushroomobserver.org/observer/show_observation/67890";
          "https://mushroomobserver.org/observer/show_observation/67890";
          "http://mushroomobserver.org/67890";
          "https://mushroomobserver.org/67890" ].
Proof.
  destruct (proj2 (C2_first_match_is_accepted Mock.repr_unused Mock.api_fourth
                     "67890" false false false)
              [ "http://mushroomobserver.org/observer/show_observation/67890";
                "https://mushroomobserver.org/observer/show_observation/67890";
                "http://mushroomobserver.org/67890" ]
              "https://mushroomobserver.org/67890"
              [ "http://mushroomobserver.org/obs/67890";
                "https://mushroomobserver.org/obs/67890" ]
              [ ("total_results", PInt 1);
                ("results", PList [Mock.record_full]) ]
              1%Z)
    as (obs & rest & _ & _ & _ & Hreq).
  - reflexivity.
  - repeat constructor.
  - reflexivity.
  - reflexivity.
  - reflexivity.
  - reflexivity.
  - exact Hreq.
Defined.

(** Every request fails: six attempts, six warnings, not found. *)
Lemma C3_witness :
  find_inaturalist_observation Mock.repr_unused Mock.api_error
    "11111" false false false
  = (inr tt,
     (attempts Mock.api_error (mo_urls "11111")
      ++ [ Print stdout
             "No iNaturalist observation found for Mushroom Observer #11111";
           Print stdout "" ])%list)
  /\ length (warnings
               (snd (find_inaturalist_observation Mock.repr_unused
                       Mock.api_error "11111" false false false))) = 6.
Proof.
  destruct (C3_failure_is_no_match Mock.repr_unused Mock.api_error
              "11111" false false false) as (_ & _ & _ & H).
  rewrite H.
  - split; reflexivity.
  - intros u _. left. reflexivity.
Defined.

Lemma C4_witness :
  main Mock.repr_unused Mock.api_empty Mock.file_missing
    (mkNamespace ["123"; " 456 "] None false false false)
  = for_each (fun mo_number =>
                find_inaturalist_observation Mock.repr_unused Mock.api_empty
                  mo_number false false false)
             ["123"; "456"].
Proof.
  destruct (C4_accepted_tokens Mock.repr_unused Mock.api_empty
              Mock.file_missing
              (mkNamespace ["123"; " 456 "] None false false false))
    as (_ & _ & _ & _ & H).
  rewrite H.
  - reflexivity.
  - reflexivity.
  - discriminate.
Defined.

Lemma C6_witness :
  exit_status
    (fst (main Mock.repr_unused Mock.api_empty Mock.file_missing
            (mkNamespace ["123"] (Some "numbers.txt") false false false)))
  = 1%Z
  /\ exit_status
       (fst (main Mock.repr_unused Mock.api_empty Mock.file_missing
               (mkNamespace ["abc"] None false false false)))
     = 1%Z
  /\ exit_status
       (fst (main Mock.repr_unused Mock.api_found Mock.file_two_numbers
               (mkNamespace ["789"] (Some "numbers.txt") false false false)))
     = 0%Z
  /\ exit_status
       (fst (main Mock.repr_unused Mock.api_error Mock.file_missing
               (mkNamespace ["123"; "456"] None false false false)))
     = 0%Z.
Proof.
  split; [| split; [| split]].
  - apply (proj1 (C6_exit_status Mock.repr_unused Mock.api_empty
                    Mock.file_missing
                    (mkNamespace ["123"] (Some "numbers.txt")
                                 false false false))).
    reflexivity.
  - apply (proj1 (proj2 (C6_exit_status Mock.repr_unused Mock.api_empty
                           Mock.file_missing
                           (mkNamespace ["abc"] None false false false))));
      reflexivity.
  - apply (proj1 (proj2 (proj2 (C6_exit_status Mock.repr_unused Mock.api_found
                                  Mock.file_two_numbers
                                  (mkNamespace ["789"] (Some "numbers.txt")
                                               false false false))))).
    + reflexivity.
    + discriminate.
    + intros u p. reflexivity.
  - apply (proj2 (proj2 (proj2 (C6_exit_status Mock.repr_unused Mock.api_error
                                  Mock.file_missing
                                  (mkNamespace ["123"; "456"] None
                                               false false false))))).
    + reflexivity.
    + discriminate.
    + intros u p. left. reflexivity.
Defined.

(** The first candidate matches, as in the tests. *)
Lemma C7_witness :
  printed stdout
    (snd (find_inaturalist_observation Mock.repr_unused Mock.api_found_bare
            "67890" false true true))
  = ["12345"].
Proof.
  apply (C7_number_only_takes_precedence Mock.repr_unused Mock.api_found_bare
           "67890" false []
           "http://mushroomobserver.org/observer/show_observation/67890"
           [ "https://mushroomobserver.org/observer/show_observation/67890";
             "http://mushroomobserver.org/67890";
             "https://mushroomobserver.org/67890";
             "http://mushroomobserver.org/obs/67890";
             "https://mushroomobserver.org/obs/67890" ]
           [("id", PInt 12345)] (PInt 12345)).
  - split; [reflexivity |]. split; [constructor |].
    exists Mock.body_found_bare, []. repeat split.
  - reflexivity.
Defined.

Lemma C8_witness :
  printed stdout
    (snd (find_inaturalist_observation Mock.repr_unused Mock.api_empty
            "00000" false false false))
  = [ "No iNaturalist observation found for Mushroom Observer #00000"; "" ]
  /\ printed stdout
       (snd (find_inaturalist_observation Mock.repr_unused Mock.api_empty
               "00000" false true false))
     = [ "Mushroom Observer #00000 has no iNaturalist observation associated with it." ].
Proof.
  assert (H : forall u, In u (mo_urls "00000") ->
                        fails (outcome Mock.api_empty u) = true
                        \/ zero_results (outcome Mock.api_empty u) = true)
    by (intros u _; right; reflexivity).
  destruct (C8_not_found_result Mock.repr_unused Mock.api_empty "00000" false H)
    as (_ & Hone & Hdefault).
  split; [exact Hdefault | exact (Hone true false eq_refl)].
Defined.

(** A record with its three fields, and one with the id alone. *)
Lemma C9_witness :
  printed stdout
    (snd (find_inaturalist_observation Mock.repr_unused Mock.api_found
            "67890" false false false))
  = [ "Mushroom Observer #67890:";
      "  iNaturalist Observation: https://www.inaturalist.org/observations/12345";
      "  Species: Amanita muscaria";
      "  Location: California, USA";
      "  Matched URL: http://mushroomobserver.org/observer/show_observation/67890";
      "" ]
  /\ printed stdout
       (snd (find_inaturalist_observation Mock.repr_unused Mock.api_found_bare
               "67890" false false false))
     = [ "Mushroom Observer #67890:";
         "  iNaturalist Observation: https://www.inaturalist.org/observations/12345";
         "  Species: N/A";
         "  Location: N/A";
         "  Matched URL: http://mushroomobserver.org/observer/show_observation/67890";
         "" ].
Proof.
  split.
  - apply (C9_default_block Mock.repr_unused Mock.api_found "67890" false []
             "http://mushroomobserver.org/observer/show_observation/67890"
             [ "https://mushroomobserver.org/observer/show_observation/67890";
               "http://mushroomobserver.org/67890";
               "https://mushroomobserver.org/67890";
               "http://mushroomobserver.org/obs/67890";
               "https://mushroomobserver.org/obs/67890" ]
             [ ("id", PInt 12345);
               ("species_guess", PStr "Amanita muscaria");
               ("place_guess", PStr "California, USA") ]
             (PInt 12345)).
    + split; [reflexivity |]. split; [constructor |].
      exists Mock.body_found, []. repeat split.
    + reflexivity.
  - apply (C9_default_block Mock.repr_unused Mock.api_found_bare "67890" false
             []
             "http://mushroomobserver.org/observer/show_observation/67890"
             [ "https://mushroomobserver.org/observer/show_observation/67890";
               "http://mushroomobserver.org/67890";
               "https://mushroomobserver.org/67890";
               "http://mushroomobserver.org/obs/67890";
               "https://mushroomobserver.org/obs/67890" ]
             [("id", PInt 12345)] (PInt 12345)).
    + split; [reflexivity |]. split; [constructor |].
      exists Mock.body_found_bare, []. repeat split.
    + reflexivity.
Defined.

Lemma C10_witness :
  snd (main Mock.repr_unused Mock.api_empty Mock.file_missing
         (mkNamespace ["123"] (Some "numbers.txt") false false false))
  = [ Print stdout
        "Error reading file numbers.txt: FileNotFoundError - File not found." ]
  /\ printed stderr
       (snd (main Mock.repr_unused Mock.api_empty Mock.file_missing
               (mkNamespace ["abc"; "1x"] None false false false)))
     = [ "Warning: Invalid MO number 'abc' provided. Skipping.";
         "Warning: Invalid MO number '1x' provided. Skipping." ]
  /\ printed stdout
       (snd (main Mock.repr_unused Mock.api_empty Mock.file_missing
               (mkNamespace ["abc"; "1x"] None false false false)))
     = [ "Error: No valid Mushroom Observer numbers provided.";
         "Usage: python script.py [mo_numbers] [--file FILE] [--debug] [--url] [-q]" ].
Proof.
  split.
  - apply (proj1 (C10_fatal_messages_on_stdout Mock.repr_unused Mock.api_empty
                    Mock.file_missing
                    (mkNamespace ["123"] (Some "numbers.txt")
                                 false false false))
             "numbers.txt"); reflexivity.
  - destruct (proj2 (C10_fatal_messages_on_stdout Mock.repr_unused
                       Mock.api_empty Mock.file_missing
                       (mkNamespace ["abc"; "1x"] None false false false)))
      as [Hout Herr].
    + reflexivity.
    + reflexivity.
    + split; [exact Herr | exact Hout].
Defined.

(** ** Where the specification's wording and the program part *)

(** C4 as worded fails on the token made of the one character SUPERSCRIPT
    TWO: [str.isdigit] takes it for a digit, so the validation loop keeps
    it and the resolver is called on it, though it is no decimal digit. *)
Lemma C4_counterexample :
  ~ (validate [Mock.superscript_two]
     = (inr [PyStr.strip Mock.superscript_two], [])
     <-> spec_valid_token Mock.superscript_two = true)
  /\ requests
       (snd (main Mock.repr_unused Mock.api_empty Mock.file_missing
               (mkNamespace [Mock.superscript_two] None false false false)))
     = map request_of (mo_urls Mock.superscript_two).
Proof.
  split.
  - intros [H _]. specialize (H eq_refl). discriminate H.
  - reflexivity.
Qed.

(** C5 as worded fails on a token of blanks: the rule makes it invalid, and
    the run prints no warning at all. *)
Lemma C5_counterexample :
  ~ (spec_valid_token "  " = false ->
     printed stderr
       (snd (main Mock.repr_unused Mock.api_empty Mock.file_missing
               (mkNamespace ["  "; "123"] None false false false)))
     <> [])
  /\ main Mock.repr_unused Mock.api_empty Mock.file_missing
       (mkNamespace ["  "; "123"] None false false false)
     = find_inaturalist_observation Mock.repr_unused Mock.api_empty
         "123" false false false.
Proof.
  split.
  - intros H. apply H; reflexivity.
  - reflexivity.
Qed.

(** A decoded body without a result count is outside the interface: the
    test of the loop raises [KeyError] and the lookup ends after its first
    request. *)
Example body_without_count_raises :
  find_inaturalist_observation Mock.repr_unused Mock.api_no_count
    "1" false false false
  = (inl (KeyError (PStr "total_results")),
     [ Get base_url
           (params_of
              "http://mushroomobserver.org/observer/show_observation/1") ]).
Proof. reflexivity. Qed.

(** ** The further properties on the fixtures *)

Module Mock2.

(** Every body is the empty object. *)
Definition api_empty_object (_ : string) (_ : list (string * string))
    : http_outcome :=
  Json (PDict []).

(** The request for number 456 is answered without a result count, every
    other one with no result. *)
Definition api_bad_456 (_ : string) (params : list (string * string))
    : http_outcome :=
  match params with
  | (_, mo_url) :: _ =>
      if String.eqb mo_url
           "http://mushroomobserver.org/observer/show_observation/456"
      then Json (PDict [ ("error", PStr "unexpected") ])
      else Json Mock.body_empty
  | [] => Json Mock.body_empty
  end.

End Mock2.

Lemma file_lines_as_arguments_witness :
  main Mock.repr_unused Mock.api_empty Mock.file_two_numbers
    (mkNamespace ["789"] (Some "numbers.txt") false false true)
  = main Mock.repr_unused Mock.api_empty Mock.file_missing
      (mkNamespace [ "789";
                     String "1" (String "2" (String "3" (String "010" "")));
                     String "4" (String "5" (String "6" (String "010" ""))) ]
                   None false false true).
Proof.
  destruct (file_lines_as_arguments Mock.repr_unused Mock.api_empty
              Mock.file_two_numbers
              (mkNamespace ["789"] (Some "numbers.txt") false false true))
    as [H _].
  destruct (H "numbers.txt"
              [ String "1" (String "2" (String "3" (String "010" "")));
                String "4" (String "5" (String "6" (String "010" ""))) ]
              eq_refl eq_refl eq_refl) as [Hmain _].
  rewrite Hmain. reflexivity.
Defined.

Lemma url_only_prints_the_url_witness :
  printed stdout
    (snd (find_inaturalist_observation Mock.repr_unused Mock.api_found_bare
            "67890" false true false))
  = ["https://www.inaturalist.org/observations/12345"].
Proof.
  apply (url_only_prints_the_url Mock.repr_unused Mock.api_found_bare
           "67890" false []
           "http://mushroomobserver.org/observer/show_observation/67890"
           [ "https://mushroomobserver.org/observer/show_observation/67890";
             "http://mushroomobserver.org/67890";
             "https://mushroomobserver.org/67890";
             "http://mushroomobserver.org/obs/67890";
             "https://mushroomobserver.org/obs/67890" ]
           [("id", PInt 12345)] (PInt 12345)).
  - split; [reflexivity |]. split; [constructor |].
    exists Mock.body_found_bare, []. repeat split.
  - reflexivity.
Defined.


Lemma falsy_body_is_passed_over_witness :
  find_inaturalist_observation Mock.repr_unused Mock2.api_empty_object
    "7" false false true
  = (inr tt,
     (map (fun u => Get base_url (params_of u)) (mo_urls "7")
      ++ [ Print stdout
             "Mushroom Observer #7 has no iNaturalist observation associated with it." ])%list).
Proof.
  apply (proj1 (proj2 (falsy_body_is_passed_over Mock.repr_unused
                         Mock2.api_empty_object "7" false false true))).
  intros u _. exists (PDict []). split; reflexivity.
Defined.

Lemma body_shape_errors_witness :
  find_inaturalist_observation Mock.repr_unused Mock.api_no_count
    "1" false false false
  = (inl (KeyError (PStr "total_results")),
     [ Get base_url
           (params_of
              "http://mushroomobserver.org/observer/show_observation/1") ]).
Proof.
  destruct (body_shape_errors Mock.repr_unused Mock.api_no_count
              "1" false false false []
              "http://mushroomobserver.org/observer/show_observation/1"
              [ "https://mushroomobserver.org/observer/show_observation/1";
                "http://mushroomobserver.org/1";
                "https://mushroomobserver.org/1";
                "http://mushroomobserver.org/obs/1";
                "https://mushroomobserver.org/obs/1" ]
              (PDict [ ("error", PStr "unexpected") ])
              eq_refl (Forall_nil _) eq_refl eq_refl) as [_ H].
  destruct (H [ ("error", PStr "unexpected") ] eq_refl) as [Hk _].
  exact (Hk eq_refl).
Defined.

(** The second of three numbers is answered out of shape: the third is
    not looked up. *)
Lemma main_stops_at_first_exception_witness :
  fst (main Mock.repr_unused Mock2.api_bad_456 Mock.file_missing
         (mkNamespace ["123"; "456"; "789"] None false false false))
  = inl (KeyError (PStr "total_results"))
  /\ length (requests
               (snd (main Mock.repr_unused Mock2.api_bad_456 Mock.file_missing
                       (mkNamespace ["123"; "456"; "789"] None
                                    false false false))))
     = 7.
Proof.
  destruct (main_stops_at_first_exception Mock.repr_unused Mock2.api_bad_456
              Mock.file_missing
              (mkNamespace ["123"; "456"; "789"] None false false false)
              ["123"] "456" ["789"] (KeyError (PStr "total_results")))
    as (Hfst & _ & Hreq & _).
  - reflexivity.
  - reflexivity.
  - intros m [<- | []]. reflexivity.
  - reflexivity.
  - split; [exact Hfst |]. rewrite Hreq. reflexivity.
Defined.

Lemma one_line_per_number_witness :
  printed stdout
    (snd (main Mock.repr_unused Mock.api_fourth Mock.file_missing
            (mkNamespace ["67890"; "11111"] None false false true)))
  = [ "12345";
      "Mushroom Observer #11111 has no iNaturalist observation associated with it." ].
Proof.
  destruct (one_line_per_number Mock.repr_unused Mock.api_fourth
              Mock.file_missing
              (mkNamespace ["67890"; "11111"] None false false true))
    as (_ & Hout & _).
  - reflexivity.
  - discriminate.
  - intros u p. unfold Mock.api_fourth.
    destruct p as [| [k v] p]; [reflexivity |].
    destruct (String.eqb v "https://mushroomobserver.org/67890"); reflexivity.
  - reflexivity.
  - rewrite Hout. reflexivity.
Defined.

Lemma candidate_identifies_the_number_witness :
  In "https://mushroomobserver.org/obs/5" (mo_urls "5").
Proof.
  pose proof (proj1 (candidate_identifies_the_number
                       "5" "5" "https://mushroomobserver.org/obs/5")
                eq_refl eq_refl) as H.
  cbn. tauto.
Defined.

(** The same number twice: the lookup is run twice. *)
Lemma run_is_the_sequence_of_lookups_witness :
  snd (main Mock.repr_unused Mock.api_found_bare Mock.file_missing
         (mkNamespace ["5"; "5"] None false false true))
  = (snd (find_inaturalist_observation Mock.repr_unused Mock.api_found_bare
            "5" false false true)
     ++ snd (find_inaturalist_observation Mock.repr_unused Mock.api_found_bare
               "5" false false true))%list.
Proof.
  rewrite (run_is_the_sequence_of_lookups Mock.repr_unused Mock.api_found_bare
             Mock.file_missing
             (mkNamespace ["5"; "5"] None false false true)).
  - reflexivity.
  - reflexivity.
  - discriminate.
  - intros mo _. reflexivity.
Defined.

(** * z.py: the earlier version of the script

    [src/z.py] has the same six candidates and the same output modes, but
    no exception handler around its requests, a status check in place of
    [raise_for_status], debug output on the standard output stream, and a
    front end that splits the file on blanks and drops invalid tokens
    without a word. *)

Module Legacy.

(** What [requests.get] hands back: the status code, the headers, and the
    decoded body, [None] when [response.json()] raises. *)
Record response : Type := mkResponse {
  status_code : Z;
  headers : list (string * string);
  body : option pyval
}.

(** [requests.get(...)] raises or returns a response. *)
Inductive get_outcome : Type :=
| GetRaises (e : string)
| GetReturns (r : response).

(** Uncaught exceptions of the script: the two of the requests library,
    an exception other than [FileNotFoundError] while the file is read,
    and the exceptions of the lookups and of [sys.exit]. *)
Inductive uncaught : Type :=
| RequestError (e : string)
| DecodeError
| FileError
| Raised (e : exn).

(** A computation of the script. *)
Definition L (A : Type) : Type := ((uncaught + A) * list event)%type.

Definition lret {A : Type} (a : A) : L A := (inr a, []).

Definition lraise {A : Type} (e : uncaught) : L A := (inl e, []).

Definition lbind {A B : Type} (m : L A) (k : A -> L B) : L B :=
  match m with
  | (inl e, t) => (inl e, t)
  | (inr a, t) => let (r, t') := k a in (r, (t ++ t')%list)
  end.

Definition lemit (e : event) : L unit := (inr tt, [e]).

(** An expression of the lookup that may raise. *)
Definition leval {A : Type} (r : exn + A) : L A :=
  match r with
  | inl e => (inl (Raised e), [])
  | inr a => (inr a, [])
  end.

Definition lprint (text : string) : L unit := lemit (Print stdout text).

(** [if debug: print(...)] *)
Definition when_debug (debug : bool) (texts : list string) : L unit :=
  if debug then (inr tt, map (Print stdout) texts) else lret tt.

Declare Scope legacy_scope.
Delimit Scope legacy_scope with legacy.
Notation "x <- m ;; k" := (lbind m (fun x => k))
  (at level 61, m at next level, right associativity) : legacy_scope.
Notation "m ;; k" := (lbind m (fun _ => k))
  (at level 61, right associativity) : legacy_scope.
Local Open Scope legacy_scope.

Fixpoint lfor_each {A : Type} (body : A -> L unit) (l : list A) : L unit :=
  match l with
  | [] => lret tt
  | x :: l' => body x ;; lfor_each body l'
  end.

Definition exit_status (r : uncaught + unit) : Z :=
  match r with
  | inr _ => 0
  | inl (Raised (SystemExit c)) => c
  | inl _ => 1
  end.

(** The line feed that starts some of the printed texts. *)
Definition nl : string := String "010" EmptyString.

(** [s.split()]: the maximal runs of characters that are not blanks. *)
Fixpoint split (s : string) : list string :=
  match s with
  | EmptyString => []
  | String c s' =>
      if PyStr.isspace c then split s'
      else
        match s' with
        | EmptyString => [String c EmptyString]
        | String c' _ =>
            if PyStr.isspace c' then String c EmptyString :: split s'
            else
              match split s' with
              | t :: ts => String c t :: ts
              | [] => [String c EmptyString]
              end
        end
  end.

(** [file.read()] for a file whose lines are [lines]. *)
Fixpoint joined (lines : list string) : string :=
  match lines with
  | [] => EmptyString
  | line :: rest => line ++ joined rest
  end.

(** No character of the string is a blank. *)
Definition no_blank (s : string) : bool :=
  PyStr.all_chars (fun c => negb (PyStr.isspace c)) s.

(** The last character of the string is a blank. *)
Fixpoint ends_with_blank (s : string) : bool :=
  match s with
  | EmptyString => false
  | String c EmptyString => PyStr.isspace c
  | String _ s' => ends_with_blank s'
  end.

(** Every line but the last ends with a blank, as the lines of a file end
    with a line feed. *)
Fixpoint terminated (lines : list string) : bool :=
  match lines with
  | [] => true
  | [_] => true
  | line :: rest => ends_with_blank line && terminated rest
  end.

Section Script.

(** [str(v)] of a float, a list or a dict, and [json.dumps(v, indent=2)]:
    CPython's, not part of the script. *)
Variable py_repr : pyval -> string.
Variable json_dumps : pyval -> string.

Variable api : string -> list (string * string) -> get_outcome.

Variable open_file : string -> file_outcome.

Definition base_url : string := "https://api.inaturalist.org/v1/observations".

Definition mo_urls (mo_number : string) : list string :=
  [ "http://mushroomobserver.org/observer/show_observation/" ++ mo_number;
    "https://mushroomobserver.org/observer/show_observation/" ++ mo_number;
    "http://mushroomobserver.org/" ++ mo_number;
    "https://mushroomobserver.org/" ++ mo_number;
    "http://mushroomobserver.org/obs/" ++ mo_number;
    "https://mushroomobserver.org/obs/" ++ mo_number ].

(** The [params] dict, as sent and as a value for [json.dumps]. *)
Definition params_of (mo_url : string) : list (string * string) :=
  [ ("field:Mushroom Observer URL", mo_url); ("verifiable", "any") ].

Definition dict_of (items : list (string * string)) : pyval :=
  PDict (map (fun kv => (fst kv, PStr (snd kv))) items).

(** The statements under [if data['total_results'] > 0:], up to the
    [return]. *)
Definition report (mo_number : string) (url_only number_only : bool)
    (mo_url : string) (data : pyval) : L unit :=
  results <- leval (Py.getitem data "results") ;;
  obs <- leval (Py.getitem0 results) ;;
  id <- leval (Py.getitem obs "id") ;;
  let inat_url :=
    "https://www.inaturalist.org/observations/" ++ py_str py_repr id in
  if number_only then
    lprint (py_str py_repr id)
  else if url_only then
    lprint inat_url
  else
    lprint (nl ++ "Mushroom Observer #" ++ mo_number ++ ":") ;;
    lprint ("  iNaturalist Observation: " ++ inat_url) ;;
    species_guess <- leval (Py.getitem obs "species_guess") ;;
    lprint ("  Species: " ++ py_str py_repr species_guess) ;;
    place_guess <- leval (Py.getitem obs "place_guess") ;;
    lprint ("  Location: " ++ py_str py_repr place_guess) ;;
    lprint ("  Matched URL: " ++ mo_url) ;;
    lprint "".

(** The [for mo_url in mo_urls] loop; the result says whether the loop
    reached its [return]. *)
Fixpoint try_urls (mo_number : string) (debug url_only number_only : bool)
    (urls : list string) : L bool :=
  match urls with
  | [] => lret false
  | mo_url :: rest =>
      let params := params_of mo_url in
      when_debug debug
        [ nl ++ "--- DEBUG: Request Details ---";
          "Base URL: " ++ base_url;
          "Mushroom Observer URL: " ++ mo_url;
          "Parameters: " ++ json_dumps (dict_of params) ] ;;
      lemit (Get base_url params) ;;
      match api base_url params with
      | GetRaises e => lraise (RequestError e)
      | GetReturns response =>
          when_debug debug
            [ nl ++ "--- DEBUG: Response Details ---";
              "Status Code: " ++ PyStr.of_int (status_code response);
              "Response Headers: "
              ++ json_dumps (dict_of (headers response)) ] ;;
          if (status_code response =? 200)%Z then
            match body response with
            | None => lraise DecodeError
            | Some data =>
                when_debug debug
                  [ nl ++ "--- DEBUG: Response Data ---"; json_dumps data ] ;;
                count <- leval (Py.getitem data "total_results") ;;
                positive <- leval (Py.gt0 count) ;;
                if (positive : bool) then
                  report mo_number url_only number_only mo_url data ;;
                  lret true
                else
                  try_urls mo_number debug url_only number_only rest
            end
          else
            when_debug debug
              [ "Error fetching data for Mushroom Observer #" ++ mo_number
                ++ " with URL " ++ mo_url ] ;;
            try_urls mo_number debug url_only number_only rest
      end
  end.

Definition find_inaturalist_observation (mo_number : string)
    (debug url_only number_only : bool) : L unit :=
  returned <- try_urls mo_number debug url_only number_only
                       (mo_urls mo_number) ;;
  if (returned : bool) then lret tt
  else if url_only || number_only then
    lprint ("Mushroom Observer #" ++ mo_number
            ++ " has no iNaturalist observation associated with it.")
  else
    lprint ("No iNaturalist observation found for Mushroom Observer #"
            ++ mo_number) ;;
    lprint "".

(** The [if args.file:] block: [file.read()] is the lines of the file put
    together. *)
Definition read_file (args : Namespace) : L (list string) :=
  match file args with
  | None => lret (mo_numbers args)
  | Some path =>
      if PyStr.nonempty path then
        match open_file path with
        | FileLines lines =>
            lret (mo_numbers args ++ split (joined lines))%list
        | FileNotFoundError =>
            lprint ("Error: File " ++ path ++ " not found.") ;;
            lraise (Raised (SystemExit 1))
        | _ => lraise FileError
        end
      else lret (mo_numbers args)
  end.

(** The statements under [if __name__ == "__main__":], after the
    arguments are parsed. *)
Definition main (args : Namespace) : L unit :=
  mo_numbers <- read_file args ;;
  let mo_numbers := filter PyStr.isdigit mo_numbers in
  match mo_numbers with
  | [] =>
      lprint "Error: No Mushroom Observer numbers provided." ;;
      lprint "Usage: python script.py [mo_numbers] [--file FILE] [--debug] [--url] [-q]" ;;
      lraise (Raised (SystemExit 1))
  | _ :: _ =>
      lfor_each (fun mo_number =>
                   find_inaturalist_observation mo_number (debug args)
                                                (url args) (q args))
                mo_numbers
  end.


(** *** Notions used to state the properties of the script *)

(** [m] with the trace [t] in front of its own. *)
Definition lprefix {A : Type} (t : list event) (m : L A) : L A :=
  (fst m, (t ++ snd m)%list).

Definition outcome (mo_url : string) : get_outcome :=
  api base_url (params_of mo_url).


(** The lines of the not-found result. *)
Definition not_found_lines (mo_number : string) (url_only number_only : bool)
    : list string :=
  if url_only || number_only then
    [ "Mushroom Observer #" ++ mo_number
      ++ " has no iNaturalist observation associated with it." ]
  else
    [ "No iNaturalist observation found for Mushroom Observer #" ++ mo_number;
      "" ].


(** The trace of [when_debug]. *)
Definition debug_trace (debug : bool) (texts : list string) : list event :=
  if debug then map (Print stdout) texts else [].

(** The tokens the script filters when the file, if any, is read. *)
Definition tokens (args : Namespace) : list string :=
  match file args with
  | Some path =>
      match open_file path with
      | FileLines lines =>
          if PyStr.nonempty path
          then (mo_numbers args ++ split (joined lines))%list
          else mo_numbers args
      | _ => mo_numbers args
      end
  | None => mo_numbers args
  end.

(** The lookup as the script calls it. *)
Definition resolve (args : Namespace) (mo_number : string) : L unit :=
  find_inaturalist_observation mo_number (debug args) (url args) (q args).

(** *** Laws of the script's computations *)

Lemma lprefix_nil {A : Type} (m : L A) : lprefix [] m = m.
Proof using. destruct m as [r t]. reflexivity. Qed.

Lemma lprefix_app {A : Type} (t1 t2 : list event) (m : L A) :
  lprefix t1 (lprefix t2 m) = lprefix (t1 ++ t2)%list m.
Proof using. unfold lprefix. cbn [fst snd]. now rewrite app_assoc. Qed.

Lemma lbind_value {A B : Type} (a : A) (t : list event) (k : A -> L B) :
  lbind (inr a, t) k = lprefix t (k a).
Proof using. unfold lbind, lprefix. destruct (k a) as [r t']. reflexivity. Qed.

Lemma lbind_raise {A B : Type} (e : uncaught) (t : list event) (k : A -> L B) :
  lbind (inl e, t) k = (inl e, t).
Proof using. reflexivity. Qed.


(** *** The loop without debug output *)











(** *** Debug output *)

Lemma when_debug_trace (debug : bool) (texts : list string) :
  when_debug debug texts = (inr tt, debug_trace debug texts).
Proof using. now destruct debug. Qed.

Lemma requests_debug_trace (debug : bool) (texts : list string) :
  requests (debug_trace debug texts) = [].
Proof using.
  destruct debug; [| reflexivity]. cbn [debug_trace].
  induction texts as [| x texts IH]; [reflexivity | exact IH].
Qed.

Lemma stderr_debug_trace (debug : bool) (texts : list string) :
  printed stderr (debug_trace debug texts) = [].
Proof using.
  destruct debug; [| reflexivity]. cbn [debug_trace].
  induction texts as [| x texts IH]; [reflexivity | exact IH].
Qed.

(** What the loop does at a candidate, with or without debug output. *)
Lemma script_try_urls_step (mo_number : string) (debug url_only number_only : bool)
    (u : string) (rest : list string) :
  try_urls mo_number debug url_only number_only (u :: rest)
  = lprefix
      (debug_trace debug
         [ nl ++ "--- DEBUG: Request Details ---";
           "Base URL: " ++ base_url;
           "Mushroom Observer URL: " ++ u;
           "Parameters: " ++ json_dumps (dict_of (params_of u)) ]
       ++ [Get base_url (params_of u)])
      match outcome u with
      | GetRaises e => (inl (RequestError e), [])
      | GetReturns r =>
          lprefix
            (debug_trace debug
               [ nl ++ "--- DEBUG: Response Details ---";
                 "Status Code: " ++ PyStr.of_int (status_code r);
                 "Response Headers: " ++ json_dumps (dict_of (headers r)) ])
            (if (status_code r =? 200)%Z then
               match body r with
               | None => (inl DecodeError, [])
               | Some data =>
                   lprefix
                     (debug_trace debug
                        [ nl ++ "--- DEBUG: Response Data ---";
                          json_dumps data ])
                     (count <- leval (Py.getitem data "total_results") ;;
                      positive <- leval (Py.gt0 count) ;;
                      if (positive : bool) then
                        report mo_number url_only number_only u data ;;
                        lret true
                      else try_urls mo_number debug url_only number_only rest)
               end
             else
               lprefix
                 (debug_trace debug
                    [ "Error fetching data for Mushroom Observer #"
                      ++ mo_number ++ " with URL " ++ u ])
                 (try_urls mo_number debug url_only number_only rest))
      end.
Proof using.
  unfold outcome. cbn [try_urls].
  rewrite !when_debug_trace, lbind_value. unfold lemit.
  rewrite lbind_value, lprefix_app. f_equal.
  destruct (api base_url (params_of u)) as [e | r]; [reflexivity |].
  rewrite ?when_debug_trace, lbind_value. f_equal.
  destruct (status_code r =? 200)%Z.
  - destruct (body r) as [data |]; [| reflexivity].
    now rewrite ?when_debug_trace, lbind_value.
  - now rewrite ?when_debug_trace, lbind_value.
Qed.

Lemma report_quiet (mo_number : string) (url_only number_only : bool)
    (u : string) (data : pyval) :
  requests (snd (report mo_number url_only number_only u data)) = []
  /\ printed stderr (snd (report mo_number url_only number_only u data)) = [].
Proof using.
  unfold report.
  destruct (Py.getitem data "results") as [e | results]; [now split |].
  cbn [leval]. rewrite lbind_value, lprefix_nil.
  destruct (Py.getitem0 results) as [e | obs]; [now split |].
  cbn [leval]. rewrite lbind_value, lprefix_nil.
  destruct (Py.getitem obs "id") as [e | id]; [now split |].
  cbn [leval]. rewrite lbind_value, lprefix_nil.
  destruct number_only; [now split |]. destruct url_only; [now split |].
  unfold lprint, lemit. rewrite !lbind_value.
  destruct (Py.getitem obs "species_guess") as [e | sg]; [now split |].
  cbn [leval]. rewrite !lbind_value.
  destruct (Py.getitem obs "place_guess") as [e | pg]; now split.
Qed.

Lemma try_urls_debug (mo_number : string) (url_only number_only : bool)
    (urls : list string) :
  fst (try_urls mo_number true url_only number_only urls)
  = fst (try_urls mo_number false url_only number_only urls)
  /\ requests (snd (try_urls mo_number true url_only number_only urls))
     = requests (snd (try_urls mo_number false url_only number_only urls))
  /\ forall debug,
       printed stderr
         (snd (try_urls mo_number debug url_only number_only urls)) = [].
Proof using.
  induction urls as [| u urls (IHf & IHr & IHe)]; [now repeat split |].
  assert (Hrep := report_quiet mo_number url_only number_only u).
  split; [| split].
  - rewrite !script_try_urls_step.
    cbn [lprefix fst]. destruct (outcome u) as [e | r]; [reflexivity |].
    cbn [lprefix fst]. destruct (status_code r =? 200)%Z; [| exact IHf].
    destruct (body r) as [data |]; [| reflexivity]. cbn [lprefix fst].
    destruct (Py.getitem data "total_results") as [e | count]; [reflexivity |].
    cbn [leval]. rewrite !lbind_value, !lprefix_nil.
    destruct (Py.gt0 count) as [e | [|]]; [reflexivity | reflexivity |].
    cbn [leval]. now rewrite !lbind_value, !lprefix_nil.
  - rewrite !script_try_urls_step. cbn [lprefix snd].
    rewrite ?requests_app, ?requests_debug_trace. cbn [app].
    f_equal.
    destruct (outcome u) as [e | r]; [reflexivity |].
    cbn [lprefix snd]. rewrite ?requests_app, ?requests_debug_trace.
    cbn [debug_trace app].
    destruct (status_code r =? 200)%Z.
    + destruct (body r) as [data |]; [| reflexivity]. cbn [lprefix snd].
      rewrite ?requests_app, ?requests_debug_trace. cbn [app].
      destruct (Py.getitem data "total_results") as [e | count];
        [reflexivity |].
      cbn [leval]. rewrite !lbind_value, !lprefix_nil.
      destruct (Py.gt0 count) as [e | [|]]; [reflexivity | reflexivity |].
      cbn [leval]. now rewrite !lbind_value, !lprefix_nil.
    + cbn [lprefix snd]. now rewrite ?requests_app, ?requests_debug_trace.
  - intros debug. rewrite script_try_urls_step. cbn [lprefix snd].
    rewrite ?printed_app, ?stderr_debug_trace. cbn [printed app].
    destruct (outcome u) as [e | r]; [reflexivity |].
    cbn [lprefix snd]. rewrite ?printed_app, ?stderr_debug_trace. cbn [app].
    destruct (status_code r =? 200)%Z.
    + destruct (body r) as [data |]; [| reflexivity]. cbn [lprefix snd].
      rewrite ?printed_app, ?stderr_debug_trace. cbn [app].
      destruct (Py.getitem data "total_results") as [e | count];
        [reflexivity |].
      cbn [leval]. rewrite !lbind_value, !lprefix_nil.
      destruct (Py.gt0 count) as [e | [|]]; [reflexivity | |].
      * cbn [leval]. rewrite !lbind_value, !lprefix_nil.
        destruct (Hrep data) as [_ Hs].
        destruct (report mo_number url_only number_only u data)
          as [[e | []] t]; cbn [snd] in *; [exact Hs |].
        cbn. now rewrite app_nil_r.
      * cbn [leval]. rewrite !lbind_value, !lprefix_nil. apply IHe.
    + cbn [lprefix snd]. rewrite ?printed_app, ?stderr_debug_trace. apply IHe.
Qed.

(** X19: the debug flag changes the output only: with it the lookup ends the
    same way and sends the same requests as without it; and with or
    without it the lookup prints nothing on the error stream, the debug
    lines going to the standard output stream. *)
Theorem debug_changes_only_the_output (mo_number : string)
    (url_only number_only : bool) :
  fst (find_inaturalist_observation mo_number true url_only number_only)
  = fst (find_inaturalist_observation mo_number false url_only number_only)
  /\ requests
       (snd (find_inaturalist_observation mo_number true url_only number_only))
     = requests
         (snd (find_inaturalist_observation mo_number false
                                            url_only number_only))
  /\ forall debug,
       printed stderr
         (snd (find_inaturalist_observation mo_number debug
                                            url_only number_only)) = [].
Proof using.
  destruct (try_urls_debug mo_number url_only number_only (mo_urls mo_number))
    as (Hf & Hr & He).
  unfold find_inaturalist_observation.
  assert (Hnf : forall t : list event,
             exists t',
               lprefix t
                 (if url_only || number_only
                  then lprint ("Mushroom Observer #" ++ mo_number
                               ++ " has no iNaturalist observation associated with it.")
                  else lprint ("No iNaturalist observation found for Mushroom Observer #"
                               ++ mo_number) ;;
                       lprint "")
               = (inr tt, (t ++ map (Print stdout) t')%list)).
  { intros t. destruct (url_only || number_only); eexists; unfold lprefix;
      cbn [fst snd lprint lemit lbind].
    - instantiate (1 := [_]). reflexivity.
    - instantiate (1 := [_; _]). reflexivity. }
  assert (Hshape : forall debug,
             let m := try_urls mo_number debug url_only number_only
                               (mo_urls mo_number) in
             let r := lbind m (fun returned : bool =>
                         if returned then lret tt
                         else if url_only || number_only
                           then lprint ("Mushroom Observer #" ++ mo_number
                                        ++ " has no iNaturalist observation associated with it.")
                           else lprint ("No iNaturalist observation found for Mushroom Observer #"
                                        ++ mo_number) ;;
                                lprint "") in
             fst r = match fst m with
                     | inl e => inl e
                     | inr _ => inr tt
                     end
             /\ requests (snd r) = requests (snd m)
             /\ printed stderr (snd r) = printed stderr (snd m)).
  { intros debug. cbv zeta.
    destruct (try_urls mo_number debug url_only number_only (mo_urls mo_number))
      as [[e | [|]] t].
    - now repeat split.
    - cbn. rewrite app_nil_r. now repeat split.
    - rewrite lbind_value. destruct (Hnf t) as [t' ->]. cbn [fst snd].
      rewrite requests_app, printed_app, requests_map_print, printed_other.
      rewrite !app_nil_r. now repeat split. }
  destruct (Hshape true) as (Ht1 & Ht2 & _).
  destruct (Hshape false) as (Hf1 & Hf2 & _).
  split; [| split].
  - rewrite Ht1, Hf1, Hf. reflexivity.
  - rewrite Ht2, Hf2. exact Hr.
  - intros debug. destruct (Hshape debug) as (_ & _ & H3).
    rewrite H3. apply He.
Qed.

(** *** Splitting on blanks *)

Lemma split_blanks (ws s : string) :
  PyStr.all_chars PyStr.isspace ws = true -> split (ws ++ s) = split s.
Proof using.
  induction ws as [| c ws IH]; [reflexivity |].
  cbn [PyStr.all_chars append]. intros H. apply andb_prop in H as [Hc Hws].
  cbn [split]. rewrite Hc. now apply IH.
Qed.

Lemma split_only_blanks (ws : string) :
  PyStr.all_chars PyStr.isspace ws = true -> split ws = [].
Proof using.
  induction ws as [| c ws IH]; [reflexivity |].
  cbn [PyStr.all_chars]. intros H. apply andb_prop in H as [Hc Hws].
  cbn [split]. rewrite Hc. now apply IH.
Qed.

Lemma split_head (c : ascii) (s : string) :
  PyStr.isspace c = false -> split (String c s) <> [].
Proof using.
  intros Hc. cbn [split]. rewrite Hc.
  destruct s as [| c' s]; [discriminate |].
  destruct (PyStr.isspace c'); [discriminate |].
  destruct (split (String c' s)); discriminate.
Qed.

(** Splitting goes through a blank. *)
Lemma split_app_blank (a : string) (c : ascii) (b : string) :
  PyStr.isspace c = true ->
  split (a ++ String c b) = (split a ++ split b)%list.
Proof using.
  intros Hc. induction a as [| x a IH].
  - cbn [append split app]. now rewrite Hc.
  - cbn [append]. cbn [split]. destruct (PyStr.isspace x) eqn:Hx; [exact IH |].
    destruct a as [| y a].
    + cbn [append]. rewrite Hc. cbn [split app]. now rewrite Hc.
    + cbn [append] in *. destruct (PyStr.isspace y) eqn:Hy.
      * now rewrite IH.
      * rewrite IH.
        pose proof (split_head y a Hy) as Hne.
        destruct (split (String y a)) as [| t ts]; [congruence | reflexivity].
Qed.

Lemma split_token (t ws : string) :
  PyStr.nonempty t = true ->
  no_blank t = true ->
  PyStr.all_chars PyStr.isspace ws = true ->
  split (t ++ ws) = [t].
Proof using.
  induction t as [| x t IH]; [discriminate |].
  intros _ Hnb Hws. unfold no_blank in Hnb. cbn [PyStr.all_chars] in Hnb.
  apply andb_prop in Hnb as [Hx Ht]. apply negb_true_iff in Hx.
  cbn [append]. cbn [split]. rewrite Hx.
  destruct t as [| y t].
  - cbn [append]. destruct ws as [| c ws]; [reflexivity |].
    cbn [PyStr.all_chars] in Hws. pose proof Hws as Hws'.
    apply andb_prop in Hws as [Hc _]. rewrite Hc.
    now rewrite (split_only_blanks (String c ws) Hws').
  - cbn [append]. pose proof Ht as Ht'. cbn [PyStr.all_chars] in Ht.
    apply andb_prop in Ht as [Hy _]. apply negb_true_iff in Hy. rewrite Hy.
    change (String y (t ++ ws)) with (String y t ++ ws).
    now rewrite (IH eq_refl Ht' Hws).
Qed.

(** A line that holds at most one token gives that token, trimmed. *)
Lemma split_line (line : string) :
  no_blank (PyStr.strip line) = true ->
  split line
  = if PyStr.nonempty (PyStr.strip line) then [PyStr.strip line] else [].
Proof using.
  intros Hnb.
  destruct (strip_spec line) as ((l & r & Hl & Hbl & Hbr) & _ & _).
  rewrite Hl at 1. rewrite (split_blanks l _ Hbl).
  destruct (PyStr.nonempty (PyStr.strip line)) eqn:Hne.
  - now apply split_token.
  - destruct (PyStr.strip line); [| discriminate]. cbn [append].
    now apply split_only_blanks.
Qed.

Lemma ends_with_blank_spec (s : string) :
  ends_with_blank s = true ->
  exists a c, s = a ++ String c "" /\ PyStr.isspace c = true.
Proof using.
  induction s as [| x s IH]; [discriminate |].
  destruct s as [| y s].
  - cbn. intros Hx. now exists "", x.
  - intros H. change (ends_with_blank (String y s) = true) in H.
    destruct (IH H) as (a & c & Ha & Hc).
    exists (String x a), c. cbn [append]. now rewrite <- Ha.
Qed.

Lemma append_assoc (a b c : string) : (a ++ b) ++ c = a ++ (b ++ c).
Proof using. induction a as [| x a IH]; [reflexivity |]. cbn. now rewrite IH. Qed.

Lemma append_nil_r (a : string) : a ++ "" = a.
Proof using. induction a as [| x a IH]; [reflexivity |]. cbn. now rewrite IH. Qed.

Lemma split_after_line (line rest : string) :
  ends_with_blank line = true ->
  split (line ++ rest) = (split line ++ split rest)%list.
Proof using.
  intros H. destruct (ends_with_blank_spec line H) as (a & c & -> & Hc).
  rewrite append_assoc. cbn [append].
  rewrite !(split_app_blank a c _ Hc). cbn [split]. now rewrite app_nil_r.
Qed.

(** The tokens of a file whose lines hold at most one token each. *)
Lemma split_joined (lines : list string) :
  terminated lines = true ->
  Forall (fun line => no_blank (PyStr.strip line) = true) lines ->
  split (joined lines) = file_tokens lines.
Proof using.
  induction lines as [| line lines IH]; [reflexivity |].
  intros Ht Hall. inversion Hall as [| ? ? Hline Hrest]; subst.
  cbn [joined file_tokens].
  destruct lines as [| next lines].
  - cbn [joined file_tokens]. rewrite append_nil_r, (split_line line Hline).
    now destruct (PyStr.nonempty (PyStr.strip line)).
  - change (terminated (line :: next :: lines))
      with (ends_with_blank line && terminated (next :: lines)) in Ht.
    apply andb_prop in Ht as [Hend Ht].
    rewrite (split_after_line _ _ Hend), (IH Ht Hrest), (split_line line Hline).
    now destruct (PyStr.nonempty (PyStr.strip line)).
Qed.

(** The tokens of [split] are not empty and hold no blank. *)
Lemma split_tokens_clean (s : string) :
  Forall (fun t => PyStr.nonempty t = true /\ no_blank t = true) (split s).
Proof using.
  induction s as [| c s IH]; [constructor |].
  cbn [split]. destruct (PyStr.isspace c) eqn:Hc; [exact IH |].
  assert (H1 : PyStr.nonempty (String c "") = true
               /\ no_blank (String c "") = true)
    by (unfold no_blank; cbn; now rewrite Hc).
  destruct s as [| c' s]; [now repeat constructor |].
  destruct (PyStr.isspace c'); [now constructor |].
  destruct (split (String c' s)) as [| t ts]; [now repeat constructor |].
  inversion IH as [| ? ? [Hne Hnb] Hts]; subst.
  constructor; [| assumption].
  split; [reflexivity |]. unfold no_blank in *. cbn [PyStr.all_chars].
  now rewrite Hc, Hnb.
Qed.

(** *** The front end of the script *)

Lemma find_stderr_quiet (mo_number : string)
    (debug url_only number_only : bool) :
  printed stderr
    (snd (find_inaturalist_observation mo_number debug url_only number_only))
  = [].
Proof using.
  destruct (try_urls_debug mo_number url_only number_only (mo_urls mo_number))
    as (_ & _ & He).
  unfold find_inaturalist_observation. specialize (He debug).
  destruct (try_urls mo_number debug url_only number_only (mo_urls mo_number))
    as [[e | [|]] t]; cbn [snd] in He.
  - exact He.
  - cbn. now rewrite app_nil_r.
  - rewrite lbind_value. cbn [lprefix snd]. rewrite printed_app, He.
    destruct (url_only || number_only); reflexivity.
Qed.

Lemma lfor_each_stderr_quiet {A : Type} (body : A -> L unit) (l : list A) :
  (forall x, printed stderr (snd (body x)) = []) ->
  printed stderr (snd (lfor_each body l)) = [].
Proof using.
  intros H. induction l as [| x l IH]; [reflexivity |].
  cbn [lfor_each]. specialize (H x).
  destruct (body x) as [[e | []] t]; cbn [snd] in H.
  - exact H.
  - rewrite lbind_value. cbn [lprefix snd]. now rewrite printed_app, H, IH.
Qed.

Lemma script_main_runs (args : Namespace) :
  match file args with
  | Some path =>
      PyStr.nonempty path = true ->
      exists lines, open_file path = FileLines lines
  | None => True
  end ->
  filter PyStr.isdigit (tokens args) <> [] ->
  main args = lfor_each (resolve args) (filter PyStr.isdigit (tokens args)).
Proof using.
  intros Hfile Hne. unfold main, read_file, tokens in *.
  destruct (file args) as [path |].
  - destruct (PyStr.nonempty path).
    + destruct (Hfile eq_refl) as [lines Ho]. rewrite Ho in *.
      unfold lret at 1. rewrite lbind_value, lprefix_nil.
      destruct (filter PyStr.isdigit (mo_numbers args ++ split (joined lines)));
        [congruence | reflexivity].
    + assert (Hsame : (match open_file path with
                       | FileLines _ => mo_numbers args
                       | _ => mo_numbers args
                       end) = mo_numbers args)
        by now destruct (open_file path).
      rewrite Hsame in *.
      unfold lret at 1. rewrite lbind_value, lprefix_nil.
      destruct (filter PyStr.isdigit (mo_numbers args));
        [congruence | reflexivity].
  - unfold lret at 1. rewrite lbind_value, lprefix_nil.
    destruct (filter PyStr.isdigit (mo_numbers args));
      [congruence | reflexivity].
Qed.

(** X20: the script never prints on the error stream: invalid tokens are
    dropped without a warning, and debug lines, error messages and results
    all go to the standard output stream, whatever the API answers. *)
Theorem script_never_prints_on_stderr (args : Namespace) :
  printed stderr (snd (main args)) = [].
Proof using.
  unfold main.
  assert (Hloop : forall toks,
             printed stderr
               (snd (match filter PyStr.isdigit toks with
                     | [] =>
                         lprint "Error: No Mushroom Observer numbers provided." ;;
                         lprint "Usage: python script.py [mo_numbers] [--file FILE] [--debug] [--url] [-q]" ;;
                         lraise (Raised (SystemExit 1))
                     | _ :: _ =>
                         lfor_each
                           (fun mo_number =>
                              find_inaturalist_observation mo_number
                                (debug args) (url args) (q args))
                           (filter PyStr.isdigit toks)
                     end)) = []).
  { intros toks. destruct (filter PyStr.isdigit toks) as [| m l] eqn:E;
      [reflexivity |].
    apply lfor_each_stderr_quiet. intros x. apply find_stderr_quiet. }
  unfold read_file.
  destruct (file args) as [path |].
  - destruct (PyStr.nonempty path).
    + destruct (open_file path); try reflexivity.
      unfold lret at 1. rewrite lbind_value, lprefix_nil. apply Hloop.
    + unfold lret at 1. rewrite lbind_value, lprefix_nil. apply Hloop.
  - unfold lret at 1. rewrite lbind_value, lprefix_nil. apply Hloop.
Qed.

(** X21: the three fatal ends of the script: a missing file is reported on
    the standard output stream and the exit status is 1; any other failure
    to read the file is not handled, so the script ends with the exception,
    status 1, and prints nothing itself; and when no token is made of
    digits the script prints its error and usage lines and exits with
    status 1; no request is sent in any of the three. *)
Theorem script_fatal_ends (args : Namespace) :
  (forall path,
      file args = Some path ->
      PyStr.nonempty path = true ->
      match open_file path with
      | FileNotFoundError =>
          main args
          = (inl (Raised (SystemExit 1)),
             [Print stdout ("Error: File " ++ path ++ " not found.")])
      | FileLines _ => True
      | _ => main args = (inl FileError, [])
      end
      /\ match open_file path with
         | FileLines _ => True
         | _ => exit_status (fst (main args)) = 1%Z
         end)
  /\ (match file args with
      | Some path =>
          PyStr.nonempty path = true ->
          exists lines, open_file path = FileLines lines
      | None => True
      end ->
      filter PyStr.isdigit (tokens args) = [] ->
      main args
      = (inl (Raised (SystemExit 1)),
         [ Print stdout "Error: No Mushroom Observer numbers provided.";
           Print stdout
             "Usage: python script.py [mo_numbers] [--file FILE] [--debug] [--url] [-q]" ])
      /\ exit_status (fst (main args)) = 1%Z).
Proof using.
  split.
  - intros path Hf Hp. unfold main, read_file. rewrite Hf, Hp.
    destruct (open_file path); split; (exact I || reflexivity).
  - intros Hfile He.
    assert (Hmain : main args
                    = (inl (Raised (SystemExit 1)),
                       [ Print stdout "Error: No Mushroom Observer numbers provided.";
                         Print stdout
                           "Usage: python script.py [mo_numbers] [--file FILE] [--debug] [--url] [-q]" ])).
    { unfold main, read_file, tokens in *.
      destruct (file args) as [path |].
      - destruct (PyStr.nonempty path).
        + destruct (Hfile eq_refl) as [lines Ho]. rewrite Ho in *.
          unfold lret at 1. rewrite lbind_value, lprefix_nil. now rewrite He.
        + assert (Hsame : (match open_file path with
                           | FileLines _ => mo_numbers args
                           | _ => mo_numbers args
                           end) = mo_numbers args)
            by now destruct (open_file path).
          rewrite Hsame in He.
          unfold lret at 1. rewrite lbind_value, lprefix_nil. now rewrite He.
      - unfold lret at 1. rewrite lbind_value, lprefix_nil. now rewrite He. }
    rewrite Hmain. now split.
Qed.

End Script.

End Legacy.

(** * The two versions side by side *)

Section Versions.

Variable py_repr : pyval -> string.
Variable json_dumps : pyval -> string.

(** The API as each version sees it. *)
Variable old_api : string -> list (string * string) -> Legacy.get_outcome.
Variable api : string -> list (string * string) -> http_outcome.

Variable open_file : string -> file_outcome.







(** *** The two front ends *)

Lemma digit_is_no_blank (c : ascii) :
  PyStr.isdigit_char c = true -> PyStr.isspace c = false.
Proof using.
  unfold PyStr.isdigit_char, PyStr.isspace, PyStr.between.
  intros H. apply not_true_is_false. intros Hs.
  rewrite !orb_true_iff, !andb_true_iff, !N.leb_le, !N.eqb_eq in *. lia.
Qed.

Lemma all_chars_app (p : ascii -> bool) (a b : string) :
  PyStr.all_chars p (a ++ b) = PyStr.all_chars p a && PyStr.all_chars p b.
Proof using.
  induction a as [| c a IH]; [reflexivity |].
  cbn [append PyStr.all_chars]. now rewrite IH, andb_assoc.
Qed.

Lemma digits_are_trimmed (s : string) :
  PyStr.isdigit s = true -> PyStr.strip s = s.
Proof using.
  unfold PyStr.isdigit. intros H. apply andb_prop in H as [_ H].
  apply strip_fixed.
  - intros c t ->. cbn [PyStr.all_chars] in H.
    apply andb_prop in H as [Hc _]. now apply digit_is_no_blank.
  - intros t c ->. rewrite all_chars_app in H.
    apply andb_prop in H as [_ H]. cbn [PyStr.all_chars] in H.
    apply andb_prop in H as [Hc _]. now apply digit_is_no_blank.
Qed.

Lemma valid_numbers_trimmed (l : list string) :
  Forall (fun t => PyStr.strip t = t) l ->
  valid_numbers l = filter PyStr.isdigit l.
Proof using.
  unfold valid_numbers.
  induction 1 as [| t l Ht _ IH]; [reflexivity |].
  cbn [filter]. unfold accepted at 1. rewrite Ht.
  destruct (PyStr.isdigit t); cbn [map]; now rewrite ?Ht, IH.
Qed.

Lemma file_tokens_trimmed (lines : list string) :
  Forall (fun t => PyStr.strip t = t) (file_tokens lines).
Proof using.
  induction lines as [| l lines IH]; [constructor |].
  cbn [file_tokens]. destruct (PyStr.nonempty (PyStr.strip l)); [| exact IH].
  constructor; [apply strip_idem | exact IH].
Qed.

(** X23: a token the earlier version accepts, one made of digits as it
    stands, is accepted unchanged by the later version, so the numbers of
    the earlier are among those of the later; the later also accepts a
    token made of digits between blanks, which the earlier drops. *)
Theorem earlier_numbers_are_still_accepted (toks : list string) :
  (forall tok,
      PyStr.isdigit tok = true ->
      PyStr.strip tok = tok /\ validate [tok] = (inr [tok], []))
  /\ valid_numbers (filter PyStr.isdigit toks) = filter PyStr.isdigit toks
  /\ incl (filter PyStr.isdigit toks) (valid_numbers toks)
  /\ (filter PyStr.isdigit [" 5 "] = [] /\ valid_numbers [" 5 "] = ["5"]).
Proof using.
  split; [| split; [| split]].
  - intros tok H. pose proof (digits_are_trimmed tok H) as Ht.
    split; [exact Ht |].
    rewrite validate_spec. unfold valid_numbers. cbn [filter].
    unfold accepted, warned. rewrite Ht, H.
    cbn [map negb andb]. rewrite Ht, andb_false_r. reflexivity.
  - rewrite valid_numbers_trimmed.
    + induction toks as [| t l IH]; [reflexivity |].
      cbn [filter]. destruct (PyStr.isdigit t) eqn:Ht; [| exact IH].
      cbn [filter]. now rewrite Ht, IH.
    + apply Forall_forall. intros t Ht.
      apply filter_In in Ht as [_ Ht]. now apply digits_are_trimmed.
  - intros t Ht. apply filter_In in Ht as [Hin Hd].
    unfold valid_numbers. apply in_map_iff. exists t.
    split; [now apply digits_are_trimmed |].
    apply filter_In. split; [assumption |].
    unfold accepted. now rewrite (digits_are_trimmed t Hd).
  - split; reflexivity.
Qed.

(** X24: for arguments without blanks around them and a file whose lines
    hold at most one token each, the two versions look up the same
    numbers in the same order, the later one after its warnings. *)
Theorem versions_look_up_the_same_numbers (args : Namespace) :
  Forall (fun t => PyStr.strip t = t) (mo_numbers args) ->
  match file args with
  | Some path =>
      PyStr.nonempty path = true ->
      exists lines,
        open_file path = FileLines lines /\
        Legacy.terminated lines = true /\
        Forall (fun line => Legacy.no_blank (PyStr.strip line) = true) lines
  | None => True
  end ->
  let numbers := filter PyStr.isdigit (Legacy.tokens open_file args) in
  numbers = valid_numbers (tokens open_file args)
  /\ (numbers <> [] ->
      Legacy.main py_repr json_dumps old_api open_file args
      = Legacy.lfor_each
          (Legacy.resolve py_repr json_dumps old_api args) numbers
      /\ main py_repr api open_file args
         = prefix_trace (map warning_of (filter warned (tokens open_file args)))
             (for_each (resolve py_repr api args) numbers)).
Proof using.
  intros Hcli Hfile. cbv zeta.
  assert (Htok : Legacy.tokens open_file args = tokens open_file args
                 /\ Forall (fun t => PyStr.strip t = t) (tokens open_file args)
                 /\ unreadable open_file args = false).
  { unfold Legacy.tokens, tokens, unreadable.
    destruct (file args) as [path |]; [| now repeat split].
    destruct (PyStr.nonempty path).
    - destruct (Hfile eq_refl) as (lines & -> & Hterm & Hone).
      rewrite (Legacy.split_joined lines Hterm Hone).
      split; [reflexivity |]. split; [| reflexivity].
      apply Forall_app. split; [assumption | apply file_tokens_trimmed].
    - cbn [andb]. now destruct (open_file path). }
  destruct Htok as (Htok & Htrim & Hread).
  assert (Hnum : filter PyStr.isdigit (Legacy.tokens open_file args)
                 = valid_numbers (tokens open_file args))
    by (rewrite Htok; symmetry; now apply valid_numbers_trimmed).
  split; [exact Hnum |].
  intros Hne. split.
  - apply Legacy.script_main_runs; [| exact Hne].
    destruct (file args) as [path |]; [| exact I].
    intros Hp. destruct (Hfile Hp) as (lines & Ho & _). now exists lines.
  - rewrite Hnum in *. now apply main_runs.
Qed.

End Versions.

(** ** The properties of the script on fixtures *)

Module Mock3.

Definition dumps_unused (_ : pyval) : string := "".


(** Status 200 and one record with its three fields. *)
Definition old_api_found (_ : string) (_ : list (string * string))
    : Legacy.get_outcome :=
  Legacy.GetReturns (Legacy.mkResponse 200 [] (Some Mock.body_found)).



End Mock3.




Lemma script_fatal_ends_witness :
  Legacy.main Mock.repr_unused Mock3.dumps_unused Mock3.old_api_found
    Mock.file_missing
    (mkNamespace ["123"] (Some "numbers.txt") false false false)
  = (inl (Legacy.Raised (SystemExit 1)),
     [Print stdout "Error: File numbers.txt not found."])
  /\ Legacy.exit_status
       (fst (Legacy.main Mock.repr_unused Mock3.dumps_unused
               Mock3.old_api_found Mock.file_missing
               (mkNamespace ["abc"; " 12"] None false false false)))
     = 1%Z.
Proof.
  split.
  - apply (proj1 (proj1 (Legacy.script_fatal_ends Mock.repr_unused
                           Mock3.dumps_unused Mock3.old_api_found
                           Mock.file_missing
                           (mkNamespace ["123"] (Some "numbers.txt")
                                        false false false))
                    "numbers.txt" eq_refl eq_refl)).
  - apply (proj2 (Legacy.script_fatal_ends Mock.repr_unused
                    Mock3.dumps_unused Mock3.old_api_found Mock.file_missing
                    (mkNamespace ["abc"; " 12"] None false false false)));
      [exact I | reflexivity].
Defined.


Lemma earlier_numbers_are_still_accepted_witness :
  validate ["12345"] = (inr ["12345"], []).
Proof.
  apply (proj1 (earlier_numbers_are_still_accepted []) "12345"). reflexivity.
Defined.

Lemma versions_look_up_the_same_numbers_witness :
  filter PyStr.isdigit
    (Legacy.tokens Mock.file_two_numbers
       (mkNamespace ["789"; "x1"] (Some "numbers.txt") false false false))
  = ["789"; "123"; "456"]
  /\ valid_numbers
       (tokens Mock.file_two_numbers
          (mkNamespace ["789"; "x1"] (Some "numbers.txt") false false false))
     = ["789"; "123"; "456"].
Proof.
  destruct (versions_look_up_the_same_numbers Mock.repr_unused
              Mock3.dumps_unused Mock3.old_api_found Mock.api_found
              Mock.file_two_numbers
              (mkNamespace ["789"; "x1"] (Some "numbers.txt")
                           false false false))
    as [Hnum _].
  - repeat constructor.
  - intros _. eexists. split; [reflexivity |]. split; [reflexivity |].
    repeat constructor.
  - split; [reflexivity |]. rewrite <- Hnum. reflexivity.
Defined.
